(** * EPEC country-sector-year extraction: a model of [scripts/epec_extract.py]

    The script downloads one time series per (country, sector) pair from the
    EPEC portal, flattens the series into a dense country x sector x year
    table, checks the table against the portal's own grand total and only then
    writes the CSV file and its metadata.

    The model follows the script function by function.  Python values that
    come out of [json.loads] are the inductive [pyval]; Python integers are
    [Z]; Python floats are the binary64 numbers of [PrimFloat]; exceptions are
    the left summand of [result]; the network and the file system are an
    oracle ([World]) consulted by a state-and-error monad [M] that records
    every request and every file operation in a trace of [event]s. *)

From Stdlib Require Import ZArith String Ascii List Floats DecimalString Lia.
From stdpp Require Import base tactics option list list_numbers gmap strings.

Local Open Scope string_scope.
Local Open Scope Z_scope.
#[local] Set Warnings "-register-all".

(** ** Python strings

    A Python [str] is modelled as a [string] holding one [ascii] per
    character; the whitespace and case tables below are Python's, restricted
    to the ASCII range. *)

(** [str.isspace] on one character: TAB, LF, VT, FF, CR, the four separators
    FS GS RS US, and the space. *)
Definition py_isspace (c : ascii) : bool :=
  let n := N_of_ascii c in
  ((9 <=? n)%N && (n <=? 13)%N) || ((28 <=? n)%N && (n <=? 32)%N).

Fixpoint str_lstrip (s : string) : string :=
  match s with
  | String c t => if py_isspace c then str_lstrip t else s
  | EmptyString => EmptyString
  end.

Fixpoint str_rstrip (s : string) : string :=
  match s with
  | EmptyString => EmptyString
  | String c t =>
      match str_rstrip t with
      | EmptyString => if py_isspace c then EmptyString else String c EmptyString
      | t' => String c t'
      end
  end.

(** [s.strip()] *)
Definition str_strip (s : string) : string := str_rstrip (str_lstrip s).

Definition ascii_lower (c : ascii) : ascii :=
  let n := N_of_ascii c in
  if ((65 <=? n)%N && (n <=? 90)%N) then ascii_of_N (n + 32) else c.

(** [s.lower()] *)
Fixpoint str_lower (s : string) : string :=
  match s with
  | EmptyString => EmptyString
  | String c t => String (ascii_lower c) (str_lower t)
  end.

(** [needle in hay] *)
Fixpoint str_contains (needle hay : string) : bool :=
  if String.prefix needle hay then true
  else match hay with
       | EmptyString => false
       | String _ t => str_contains needle t
       end.

(** [s.replace(old, new)] for a non-empty [old]: scan from the left, replace
    each occurrence and resume after it.  [skip] counts the characters of an
    occurrence already replaced that are still to be passed over. *)
Fixpoint replace_from (old new : string) (skip : nat) (s : string) : string :=
  match s with
  | EmptyString => EmptyString
  | String c t =>
      match skip with
      | S k => replace_from old new k t
      | O =>
          if String.prefix old s
          then new +:+ replace_from old new (String.length old - 1) t
          else String c (replace_from old new 0 t)
      end
  end.

(** [s.replace("", new)] puts [new] before every character and at the end. *)
Fixpoint replace_empty (new s : string) : string :=
  new +:+ match s with
          | EmptyString => EmptyString
          | String c t => String c (replace_empty new t)
          end.

Definition str_replace (old new s : string) : string :=
  match old with
  | EmptyString => replace_empty new s
  | _ => replace_from old new 0 s
  end.

(** [str(n)] for an integer, as used by the f-strings of the script. *)
Definition str_of_int (n : Z) : string := NilZero.string_of_int (Z.to_int n).

(** [sep.join(parts)] with the empty separator. *)
Definition str_concat (parts : list string) : string :=
  foldr String.append EmptyString parts.

(** ** Python values and exceptions *)

(** What [resp.json()] can return.  A [dict] keeps its items in insertion
    order; its keys are strings because it comes from a JSON object. *)
Inductive pyval : Type :=
| PyNone
| PyBool (b : bool)
| PyInt (z : Z)
| PyFloat (f : float)
| PyStr (s : string)
| PyList (xs : list pyval)
| PyDict (items : list (string * pyval)).

(** The texts of the script's [raise RuntimeError(...)] statements, with the
    values their f-strings interpolate. *)
Inductive runtime_msg : Type :=
| YearSliderNotFound        (* "Year slider not found in the EPEC portal HTML." *)
| DropdownsNotFound         (* "Unable to locate sector or country dropdowns in portal HTML." *)
| EmptyFilterList           (* "Parsed empty sector or country list from the portal." *)
| UnexpectedPayload (sector country : string) (payload : pyval)
                            (* "Unexpected payload for {sector}/{country}: {payload}" *)
| UnexpectedQuickStat (payload : pyval)
                            (* "Unexpected quickStat payload: {payload}" *)
| ValueMismatch (summed_value quickstat_total_value : Z)
                            (* "Total project value mismatch: summed rows={..} vs quickStat={..}" *)
| CountBelow (summed_projects quickstat_total_projects : Z)
                            (* "Total project count {..} is below quickStat {..}" *)
| NoRows.                   (* "No rows returned from the API." *)

Inductive exn : Type :=
| RuntimeError (msg : runtime_msg)
| KeyError (key : string)
| TypeError
| ValueError
| OverflowError
| RequestException   (* raised by requests.get, raise_for_status or resp.json *)
| OSError.           (* raised by mkdir or open *)

(** A computation that returns a value or raises. *)
Definition result (A : Type) : Type := exn + A.

Definition ok {A} (x : A) : result A := inr x.
Definition throw {A} (e : exn) : result A := inl e.
Definition and_then {A B} (m : result A) (k : A → result B) : result B :=
  match m with
  | inl e => inl e
  | inr x => k x
  end.

Declare Scope result_scope.
Delimit Scope result_scope with result.
Notation "'let?' x := m 'in' k" := (and_then m (λ x, k))
  (at level 10, x pattern, m at level 100, k at level 200,
   format "'[v' 'let?'  x  :=  m  'in' '/' k ']'") : result_scope.
Local Open Scope result_scope.

(** ** Floats

    [float_ratio f] is the exact value of a finite double as a fraction whose
    denominator is a power of two (what [float.as_integer_ratio] returns
    before reduction); it is undefined on NaN and the infinities. *)
Definition float_ratio (f : float) : option (Z * Z) :=
  match Prim2SF f with
  | S754_zero _ => Some (0, 1)
  | S754_finite s m e => Some (cond_Zopp s (Zpos m * 2 ^ Z.max e 0), 2 ^ Z.max (- e) 0)
  | S754_infinity _ | S754_nan => None
  end.

Definition float_is_nan (f : float) : bool :=
  match Prim2SF f with S754_nan => true | _ => false end.

(** [int(f)] for a float: truncation, [ValueError] on NaN, [OverflowError] on
    an infinity. *)
Definition int_of_float (f : float) : result Z :=
  match float_ratio f with
  | Some (n, d) => ok (n ÷ d)
  | None => if float_is_nan f then throw ValueError else throw OverflowError
  end.

(** Nearest integer to [n / d] ([0 < d]), ties to the even neighbour. *)
Definition round_half_even (n d : Z) : Z :=
  let q := n `div` d in
  let r := n `mod` d in
  match 2 * r ?= d with
  | Lt => q
  | Gt => q + 1
  | Eq => if Z.even q then q else q + 1
  end.

(** [round(f)] for a float, with no [ndigits]. *)
Definition round_float (f : float) : result Z :=
  match float_ratio f with
  | Some (n, d) => ok (round_half_even n d)
  | None => if float_is_nan f then throw ValueError else throw OverflowError
  end.

(** [float(n)] for an integer: the nearest double, ties to even;
    [OverflowError] when that is not finite. *)
Definition float_of_int (n : Z) : result float :=
  match binary_normalize prec emax n 0 false with
  | S754_infinity _ => throw OverflowError
  | sf => ok (SF2Prim sf)
  end.

(** A number as [sum] and [round] see it. *)
Inductive number : Type :=
| NInt (z : Z)
| NFloat (f : float).

(** [a + b] on numbers; an integer operand is converted with [float(..)]
    when the other one is a float. *)
Definition number_add (a b : number) : result number :=
  match a, b with
  | NInt x, NInt y => ok (NInt (x + y))
  | NInt x, NFloat g => let? f := float_of_int x in ok (NFloat (f + g)%float)
  | NFloat f, NInt y => let? g := float_of_int y in ok (NFloat (f + g)%float)
  | NFloat f, NFloat g => ok (NFloat (f + g)%float)
  end.

(** [sum(xs)]: starts from the integer 0 and adds from left to right, each
    float addition rounded as IEEE 754 prescribes.  (CPython 3.12 and later
    carry a compensation term through a sum of floats; no property below
    depends on how the float sum is rounded.) *)
Definition py_sum (xs : list number) : result number :=
  foldl (λ acc x, let? a := acc in number_add a x) (ok (NInt 0)) xs.

(** [round(x)] *)
Definition py_round (x : number) : result Z :=
  match x with
  | NInt z => ok z
  | NFloat f => round_float f
  end.

(** ** Operations on Python values *)

(** [bool(v)], as [or] tests it. *)
Definition py_truthy (v : pyval) : bool :=
  match v with
  | PyNone => false
  | PyBool b => b
  | PyInt z => negb (z =? 0)
  | PyFloat f => negb (f =? 0)%float
  | PyStr s => negb (String.eqb s EmptyString)
  | PyList xs => match xs with [] => false | _ => true end
  | PyDict items => match items with [] => false | _ => true end
  end.

(** [a or b] *)
Definition py_or (a b : pyval) : pyval := if py_truthy a then a else b.

Fixpoint dict_lookup (key : string) (items : list (string * pyval)) : option pyval :=
  match items with
  | [] => None
  | (k, v) :: rest => if String.eqb k key then Some v else dict_lookup key rest
  end.

(** [isinstance(v, dict)] and [isinstance(v, list)] *)
Definition is_dict (v : pyval) : bool :=
  match v with PyDict _ => true | _ => false end.

Definition is_list (v : pyval) : bool :=
  match v with PyList _ => true | _ => false end.

(** [key in v] for a dict [v]. *)
Definition dict_has (key : string) (v : pyval) : bool :=
  match v with
  | PyDict items => bool_decide (is_Some (dict_lookup key items))
  | _ => false
  end.

(** [v[key]] with a string key: [KeyError] on a dict without the key,
    [TypeError] on anything that is not a dict. *)
Definition py_getitem (v : pyval) (key : string) : result pyval :=
  match v with
  | PyDict items =>
      match dict_lookup key items with
      | Some x => ok x
      | None => throw (KeyError key)
      end
  | _ => throw TypeError
  end.

Fixpoint str_chars (s : string) : list pyval :=
  match s with
  | EmptyString => []
  | String c t => PyStr (String c EmptyString) :: str_chars t
  end.

(** [iter(v)], run to the end: the elements of a list, the characters of a
    string, the keys of a dict; [TypeError] otherwise. *)
Definition py_iter (v : pyval) : result (list pyval) :=
  match v with
  | PyList xs => ok xs
  | PyStr s => ok (str_chars s)
  | PyDict items => ok (map (λ kv, PyStr (fst kv)) items)
  | _ => throw TypeError
  end.

(** [zip(xs, ys, zs)]: stops with the shortest argument. *)
Fixpoint py_zip3 {A B C} (xs : list A) (ys : list B) (zs : list C) : list (A * B * C) :=
  match xs, ys, zs with
  | x :: xs', y :: ys', z :: zs' => (x, y, z) :: py_zip3 xs' ys' zs'
  | _, _, _ => []
  end.

(** [range(lo, hi)] *)
Definition py_range (lo hi : Z) : list Z := seqZ lo (hi - lo).

(** ** The data of the script *)

Definition BASE_URL : string := "https://data.eib.org".
Definition PORTAL_URL : string := BASE_URL +:+ "/epec/".
Definition SECTOR_YEARS_ENDPOINT : string := BASE_URL +:+ "/epec/sector/years".
Definition QUICKSTAT_ENDPOINT : string := BASE_URL +:+ "/epec/graph/quickStat".

Record Filters : Type := {
  sectors : list string;
  countries : list string;
  min_year : Z;
  max_year : Z
}.

Definition year_range (filters : Filters) : list Z :=
  py_range (min_year filters) (max_year filters + 1).

(** One yielded dict of [iter_rows], its keys in insertion order. *)
Record Row : Type := {
  row_country : string;
  row_sector : string;
  row_year : Z;
  project_count : Z;
  project_value_eur_millions : float
}.

(** What [extract_filters] reads off the parsed page: an [<option>] element
    is its attributes and its text nodes in document order. *)
Record OptionTag : Type := {
  opt_attrs : list (string * string);
  opt_strings : list string
}.

(** [soup.find("div", {"id": "yearSlider"})] (the attributes of the element),
    and [find_all("option")] under [soup.find("select", {"id": "sector"})] and
    under [soup.find("select", {"id": "country"})]; [None] when [find] finds
    nothing. *)
Record Soup : Type := {
  yearSlider : option (list (string * string));
  sector_select : option (list OptionTag);
  country_select : option (list OptionTag)
}.

Fixpoint attr_lookup (key : string) (attrs : list (string * string)) : option string :=
  match attrs with
  | [] => None
  | (k, v) :: rest => if String.eqb k key then Some v else attr_lookup key rest
  end.

(** [opt.get_text()] and [opt.get_text(strip=True)]: the text nodes joined;
    with [strip] each node is stripped first and dropped when empty. *)
Definition get_text (opt : OptionTag) : string := str_concat (opt_strings opt).

Definition get_text_strip (opt : OptionTag) : string :=
  str_concat (filter (λ s, s ≠ EmptyString) (map str_strip (opt_strings opt))).

(** [opt.get("value", "")] *)
Definition opt_value (opt : OptionTag) : string :=
  default EmptyString (attr_lookup "value" (opt_attrs opt)).

(** The arguments [write_metadata] puts in the document, apart from the two
    derived presentation fields (the download time and the value in
    billions). *)
Record Metadata : Type := {
  meta_source : string;
  meta_countries : list string;
  meta_sectors : list string;
  year_start : Z;
  year_end : Z;
  meta_row_count : Z;
  output_csv : string;
  total_projects : Z;
  total_project_value_eur_millions : Z
}.

(** The parsed command line. *)
Record Args : Type := {
  out_csv : string;
  metadata : string
}.

(** ** Effects *)

(** What a run does to the outside, in order. *)
Inductive event : Type :=
| HttpGet (url : string) (params : list (string * pyval))
| MkdirParents (path : string)  (* path.parent.mkdir(parents=True, exist_ok=True) *)
| CsvWritten (path : string) (fieldnames : list string) (rows : list Row)
| MetadataWritten (path : string) (metadata : Metadata)
| Stdout (line : string).

(** The outside: what a request returns and whether a file operation fails,
    given everything the run did before. *)
Record World : Type := {
  (* requests.get(url, timeout=60); raise_for_status(); resp.text *)
  get_text_response : list event → string → result string;
  (* requests.get(url, params=params, timeout=60); raise_for_status(); resp.json() *)
  get_json_response : list event → string → list (string * pyval) → result pyval;
  (* mkdir or open("w") raises OSError *)
  io_fails : list event → event → bool
}.

(** State (the trace so far) and exceptions. *)
Definition M (A : Type) : Type := list event → list event * result A.

Definition ret {A} (x : A) : M A := λ tr, (tr, ok x).
Definition raise {A} (e : exn) : M A := λ tr, (tr, throw e).
Definition lift {A} (r : result A) : M A := λ tr, (tr, r).
Definition bind {A B} (m : M A) (k : A → M B) : M B :=
  λ tr, match m tr with
        | (tr', inl e) => (tr', inl e)
        | (tr', inr x) => k x tr'
        end.

Declare Scope prog_scope.
Delimit Scope prog_scope with prog.
Notation "x <- m ;; k" := (bind m (λ x, k))
  (at level 20, m at level 99, k at level 200, only parsing) : prog_scope.
Notation "' pat <- m ;; k" := (bind m (λ x, match x with pat => k end))
  (at level 20, pat pattern, m at level 99, k at level 200, only parsing) : prog_scope.
Local Open Scope prog_scope.

(** A generator body run over a list, its yields collected in order, as
    [list(...)] collects them; an exception ends the loop. *)
Fixpoint for_yield {A B} (xs : list A) (body : A → M (list B)) : M (list B) :=
  match xs with
  | [] => ret []
  | x :: rest =>
      ys <- body x ;;
      zs <- for_yield rest body ;;
      ret (ys ++ zs)%list
  end.

(** ** A sample portal

    The data of the examples at the end of the file. *)

Module Sample.

Definition digit_of (c : ascii) : option Z :=
  let n := N_of_ascii c in
  if ((48 <=? n)%N && (n <=? 57)%N) then Some (Z.of_N (n - 48)) else None.

Fixpoint digits_value (acc : Z) (s : string) : option Z :=
  match s with
  | EmptyString => Some acc
  | String c t =>
      match digit_of c with
      | Some d => digits_value (10 * acc + d) t
      | None => None
      end
  end.

(** [int(s)] on the decimal literals of the sample page: digits, with an
    optional minus sign in front. *)
Definition str_to_int (s : string) : option Z :=
  match s with
  | EmptyString => None
  | String "-" EmptyString => None
  | String "-" t => Z.opp <$> digits_value 0 t
  | _ => digits_value 0 s
  end.

(** [float(s)]: the sample answers hold numbers, no numeric strings. *)
Definition str_to_float (s : string) : option float := None.

Definition option_tag (value text : string) : OptionTag :=
  {| opt_attrs := [("value", value)]; opt_strings := [text] |}.

(** The portal page: years 2000 to 2001, one sector, two countries, and the
    "--All--" entry at the head of each dropdown. *)
Definition soup : Soup :=
  {| yearSlider := Some [("id", "yearSlider");
                         ("data-slider-min", "2000");
                         ("data-slider-max", "2001")];
     sector_select := Some [option_tag "" "--All--";
                            option_tag "Transport" " Transport "];
     country_select := Some [option_tag "all" "--All--";
                             option_tag "BE" "Belgium";
                             option_tag "FR" "France"] |}.

Definition BeautifulSoup (html : string) : Soup := soup.

Definition filters : Filters :=
  {| sectors := ["Transport"]; countries := ["Belgium"; "France"];
     min_year := 2000; max_year := 2001 |}.

(** Every cell has one entry, for the year 2000. *)
Definition cell_payload : pyval :=
  PyDict [("data", PyList [PyInt 2000]);
          ("total", PyList [PyInt 3]);
          ("totalValue", PyList [PyFloat 12.5])].

(** The grand total, its value with a fractional part. *)
Definition quickstat_payload : pyval :=
  PyList [PyDict [("total", PyInt 6); ("totalValue", PyFloat 25.75)]].

Definition answers (cell quickstat : pyval) : World :=
  {| get_text_response := λ _ _, ok "<html>";
     get_json_response := λ _ url _,
       if String.eqb url SECTOR_YEARS_ENDPOINT then ok cell else ok quickstat;
     io_fails := λ _ _, false |}.

Definition world : World := answers cell_payload quickstat_payload.

Definition args : Args := {| out_csv := "data/epec.csv"; metadata := "data/epec.json" |}.

(** A cell answer whose three lists have lengths 2, 1 and 2. *)
Definition short_payload : pyval :=
  PyDict [("data", PyList [PyInt 2000; PyInt 2001]);
          ("total", PyList [PyInt 3]);
          ("totalValue", PyList [PyFloat 12.5; PyFloat 7.5])].

(** A page whose dropdowns name their all-entries in other ways. *)
Definition soup_variants : Soup :=
  {| yearSlider := yearSlider soup;
     sector_select := Some [option_tag "all" "Any sector";
                            option_tag "" "--ALL--";
                            option_tag "Transport" "Transport"];
     country_select := Some [option_tag "" "All countries";
                             option_tag "ALL" "Everywhere";
                             option_tag "BE" "Belgium"] |}.

(** The rows of the sample cube. *)
Definition row (country : string) (year projects : Z) (value : float) : Row :=
  {| row_country := country; row_sector := "Transport"; row_year := year;
     project_count := projects; project_value_eur_millions := value |}.

Definition rows : list Row :=
  [row "Belgium" 2000 3 12.5; row "Belgium" 2001 0 0;
   row "France" 2000 3 12.5; row "France" 2001 0 0].

(** The same portal reporting a total value of 26. *)
Definition world_mismatch : World :=
  answers cell_payload (PyList [PyDict [("total", PyInt 6); ("totalValue", PyInt 26)]]).

End Sample.

(** ** Edge cases of the sample portal *)

Module Edge.

(** The sample page with the two bounds of the slider exchanged. *)
Definition soup_reversed : Soup :=
  {| yearSlider := Some [("id", "yearSlider");
                         ("data-slider-min", "2001");
                         ("data-slider-max", "2000")];
     sector_select := sector_select Sample.soup;
     country_select := country_select Sample.soup |}.

(** The sample page without its year slider. *)
Definition soup_no_slider : Soup :=
  {| yearSlider := None;
     sector_select := sector_select Sample.soup;
     country_select := country_select Sample.soup |}.

(** The sample portal, its sector/years endpoint failing for France. *)
Definition world_france_fails : World :=
  {| get_text_response := λ _ _, ok "<html>";
     get_json_response := λ _ url params,
       if String.eqb url SECTOR_YEARS_ENDPOINT
       then match dict_lookup "country" params with
            | Some (PyStr "France") => throw RequestException
            | _ => ok Sample.cell_payload
            end
       else ok Sample.quickstat_payload;
     io_fails := λ _ _, false |}.

(** A cell answer that lists the year 2000 twice. *)
Definition repeated_year_payload : pyval :=
  PyDict [("data", PyList [PyInt 2000; PyInt 2000]);
          ("total", PyList [PyInt 3; PyInt 7]);
          ("totalValue", PyList [PyFloat 1.5; PyFloat 2.5])].

End Edge.

(** ** The script *)

Section Program.

(** What the script calls and the model leaves open: [int(s)] and [float(s)]
    on a string ([None] where Python raises [ValueError]), the HTML parser
    [BeautifulSoup(html, "html.parser")], and the outside world. *)
Variable str_to_int : string → option Z.
Variable str_to_float : string → option float.
Variable BeautifulSoup : string → Soup.
Variable world : World.

(** [int(v)] *)
Definition py_int (v : pyval) : result Z :=
  match v with
  | PyInt z => ok z
  | PyBool b => ok (if b then 1 else 0)
  | PyFloat f => int_of_float f
  | PyStr s =>
      match str_to_int s with
      | Some z => ok z
      | None => throw ValueError
      end
  | PyNone | PyList _ | PyDict _ => throw TypeError
  end.

(** [float(v)] *)
Definition py_float (v : pyval) : result float :=
  match v with
  | PyInt z => float_of_int z
  | PyBool b => ok (if b then 1%float else 0%float)
  | PyFloat f => ok f
  | PyStr s =>
      match str_to_float s with
      | Some f => ok f
      | None => throw ValueError
      end
  | PyNone | PyList _ | PyDict _ => throw TypeError
  end.

(** [tag[key]] on an element's attributes, then [int(..)]. *)
Definition int_attr (attrs : list (string * string)) (key : string) : result Z :=
  match attr_lookup key attrs with
  | None => throw (KeyError key)
  | Some s =>
      match str_to_int s with
      | Some z => ok z
      | None => throw ValueError
      end
  end.

(** The [if] clause of the [sectors] comprehension. *)
Definition sector_kept (opt : OptionTag) : bool :=
  negb (String.eqb (get_text_strip opt) EmptyString)
  && negb (str_contains "--All--" (get_text opt)).

(** The [if] clause of the [countries] comprehension. *)
Definition country_kept (opt : OptionTag) : bool :=
  negb (String.eqb (get_text_strip opt) EmptyString)
  && negb (str_contains "--All--" (get_text opt))
  && negb (String.eqb (str_lower (opt_value opt)) "all").

Definition extract_filters (html : string) : result Filters :=
  let soup := BeautifulSoup html in
  match yearSlider soup with
  | None => throw (RuntimeError YearSliderNotFound)
  | Some slider =>
      let? min_year := int_attr slider "data-slider-min" in
      let? max_year := int_attr slider "data-slider-max" in
      match sector_select soup, country_select soup with
      | Some sector_options, Some country_options =>
          let sectors := map get_text_strip (filter (λ opt, sector_kept opt = true) sector_options) in
          let countries := map get_text_strip (filter (λ opt, country_kept opt = true) country_options) in
          match sectors, countries with
          | _ :: _, _ :: _ =>
              ok {| sectors := sectors; countries := countries;
                    min_year := min_year; max_year := max_year |}
          | _, _ => throw (RuntimeError EmptyFilterList)
          end
      | _, _ => throw (RuntimeError DropdownsNotFound)
      end
  end.

(** Match the portal encoding by replacing spaces with underscores. *)
Definition encode_filter (value : string) : string := str_replace " " "_" value.

(** [requests.get(url, ...)] followed by [raise_for_status] and [.text] or
    [.json()]: the request is recorded, the world answers. *)
Definition http_get_text (url : string) : M string :=
  λ tr, (tr ++ [HttpGet url []], get_text_response world tr url)%list.

Definition http_get_json (url : string) (params : list (string * pyval)) : M pyval :=
  λ tr, (tr ++ [HttpGet url params], get_json_response world tr url params)%list.

(** A file operation: recorded when it succeeds. *)
Definition file_op (e : event) : M unit :=
  λ tr, if io_fails world tr e then (tr, throw OSError) else ((tr ++ [e])%list, ok tt).

Definition print (line : string) : M unit :=
  λ tr, ((tr ++ [Stdout line])%list, ok tt).

Definition fetch_portal_html : M string := http_get_text PORTAL_URL.

Definition sector_years_params (sector country : string) (year_span : Z * Z)
  : list (string * pyval) :=
  [ ("year", PyStr (str_of_int (fst year_span) +:+ "," +:+ str_of_int (snd year_span)));
    ("sector", PyStr (encode_filter sector));
    ("country", PyStr (encode_filter country)) ].

Definition fetch_sector_years (sector country : string) (year_span : Z * Z) : M pyval :=
  let params := sector_years_params sector country year_span in
  payload <- http_get_json SECTOR_YEARS_ENDPOINT params ;;
  if negb (is_dict payload) || negb (dict_has "data" payload)
  then raise (RuntimeError (UnexpectedPayload sector country payload))
  else ret payload.

Definition reference_params (filters : Filters) : list (string * pyval) :=
  [ ("year", PyInt (min_year filters));
    ("year", PyInt (max_year filters));
    ("sector", PyStr "");
    ("ccountry", PyStr "all") ].

Definition fetch_reference_totals (filters : Filters) : M (Z * Z) :=
  let params := reference_params filters in
  payload <- http_get_json QUICKSTAT_ENDPOINT params ;;
  match payload with
  | PyList (reference :: _) =>
      lift (let? total := py_getitem reference "total" in
            let? total := py_int total in
            let? total_value := py_getitem reference "totalValue" in
            let? total_value := py_int total_value in
            ok (total, total_value))
  | _ => raise (RuntimeError (UnexpectedQuickStat payload))
  end.

(** The dict comprehension of [iter_rows]: one insertion per zipped triple,
    a later year overwriting an equal earlier one. *)
Fixpoint collect_values (items : list (pyval * pyval * pyval))
    (acc : gmap Z (Z * float)) : result (gmap Z (Z * float)) :=
  match items with
  | [] => ok acc
  | (year, total, total_value) :: rest =>
      let? key := py_int year in
      let? projects := py_int (py_or total (PyInt 0)) in
      let? value := py_float (py_or total_value (PyInt 0)) in
      collect_values rest (<[key := (projects, value)]> acc)
  end.

(** [values_by_year] of [iter_rows], from the payload of one cell. *)
Definition values_by_year (payload : pyval) : result (gmap Z (Z * float)) :=
  let? data := py_getitem payload "data" in
  let? total := py_getitem payload "total" in
  let? total_value := py_getitem payload "totalValue" in
  let? years := py_iter data in
  let? totals := py_iter total in
  let? values := py_iter total_value in
  collect_values (py_zip3 years totals values) ∅.

(** The dict yielded for one year of one cell. *)
Definition cell_row (country sector : string) (values : gmap Z (Z * float)) (year : Z) : Row :=
  let '(projects, total_value) := default (0, 0%float) (values !! year) in
  {| row_country := country; row_sector := sector; row_year := year;
     project_count := projects; project_value_eur_millions := total_value |}.

(** [list(iter_rows(filters))] *)
Definition iter_rows (filters : Filters) : M (list Row) :=
  for_yield (countries filters) (λ country,
    for_yield (sectors filters) (λ sector,
      payload <- fetch_sector_years sector country (min_year filters, max_year filters) ;;
      values <- lift (values_by_year payload) ;;
      for_yield (year_range filters) (λ year,
        ret [cell_row country sector values year]))).

Definition fieldnames : list string :=
  ["country"; "sector"; "year"; "project_count"; "project_value_eur_millions"].

Definition write_csv (rows : list Row) (output_path : string) : M Z :=
  _ <- file_op (MkdirParents output_path) ;;
  match rows with
  | [] => raise (RuntimeError NoRows)
  | _ :: _ =>
      _ <- file_op (CsvWritten output_path fieldnames rows) ;;
      ret (Z.of_nat (length rows))
  end.

Definition write_metadata (filters : Filters) (output_csv metadata_path : string)
    (row_count total_projects total_value_millions : Z) : M unit :=
  let metadata :=
    {| meta_source := PORTAL_URL;
       meta_countries := countries filters;
       meta_sectors := sectors filters;
       year_start := min_year filters;
       year_end := max_year filters;
       meta_row_count := row_count;
       output_csv := output_csv;
       total_projects := total_projects;
       total_project_value_eur_millions := total_value_millions |} in
  file_op (MetadataWritten metadata_path metadata).

(** [summed_projects] and [summed_value] of [main]. *)
Definition summed_totals (rows : list Row) : result (Z * Z) :=
  let summed_projects := foldl Z.add 0 (map project_count rows) in
  let? total := py_sum (map (λ row, NFloat (project_value_eur_millions row)) rows) in
  let? summed_value := py_round total in
  ok (summed_projects, summed_value).

(** The two checks of [main] on the sums and the quickStat totals. *)
Definition check_totals (summed_projects summed_value
    quickstat_total_projects quickstat_total_value : Z) : result unit :=
  if negb (summed_value =? quickstat_total_value)
  then throw (RuntimeError (ValueMismatch summed_value quickstat_total_value))
  else if summed_projects <? quickstat_total_projects
  then throw (RuntimeError (CountBelow summed_projects quickstat_total_projects))
  else ok tt.

Definition main (args : Args) : M unit :=
  html <- fetch_portal_html ;;
  filters <- lift (extract_filters html) ;;
  rows <- iter_rows filters ;;
  '(quickstat_total_projects, quickstat_total_value) <- fetch_reference_totals filters ;;
  '(summed_projects, summed_value) <- lift (summed_totals rows) ;;
  _ <- lift (check_totals summed_projects summed_value
               quickstat_total_projects quickstat_total_value) ;;
  row_count <- write_csv rows (out_csv args) ;;
  _ <- write_metadata filters (out_csv args) (metadata args) row_count
         summed_projects summed_value ;;
  print ("Wrote " +:+ str_of_int row_count +:+ " rows to " +:+ out_csv args).

(** * Specification vocabulary

    The notions the properties below are stated with: character-wise maps on
    strings, the kinds of events, the triples of a domain and the rows they
    give, the stages a run has reached. *)

Fixpoint str_map (f : ascii → ascii) (s : string) : string :=
  match s with
  | EmptyString => EmptyString
  | String c t => String (f c) (str_map f t)
  end.

Definition space_to_underscore (c : ascii) : ascii :=
  if Ascii.eqb c " " then "_"%char else c.

(** Whether some character of [s] is white space. *)
Fixpoint has_whitespace (s : string) : bool :=
  match s with
  | EmptyString => false
  | String c t => py_isspace c || has_whitespace t
  end.

(** A value with a TAB between two letters. *)
Definition tab_value : string :=
  String "a" (String (ascii_of_nat 9) (String "b" EmptyString)).

Definition is_http (e : event) : Prop :=
  match e with HttpGet _ _ => True | _ => False end.

(** Anything but a request: creating the directory, writing one of the two
    files, printing the closing line. *)
Definition is_output (e : event) : Prop :=
  match e with HttpGet _ _ => False | _ => True end.

(** [m] extends the trace, and only with requests. *)
Definition only_requests {A} (m : M A) : Prop :=
  ∀ tr, ∃ new, fst (m tr) = (tr ++ new)%list ∧ Forall is_http new.

Definition row_key (row : Row) : string * string * Z :=
  (row_country row, row_sector row, row_year row).

(** The (country, sector) pairs of the domain, countries varying slowest. *)
Definition domain_pairs (filters : Filters) : list (string * string) :=
  list_prod (countries filters) (sectors filters).

(** The (country, sector, year) triples of the domain, years varying
    fastest. *)
Definition domain_triples (filters : Filters) : list (string * string * Z) :=
  flat_map (λ p, map (λ year, (fst p, snd p, year)) (year_range filters))
           (domain_pairs filters).

(** The request [fetch_sector_years] sends for one pair. *)
Definition cell_request (filters : Filters) (p : string * string) : event :=
  HttpGet SECTOR_YEARS_ENDPOINT
    (sector_years_params (snd p) (fst p) (min_year filters, max_year filters)).

(** The series of one pair: what the world answers to the pair's request
    issued after [tr], checked by [fetch_sector_years] and turned into
    [values_by_year]. *)
Definition cell_series (filters : Filters) (tr : list event) (p : string * string)
  : result (gmap Z (Z * float)) :=
  let? payload := get_json_response world tr SECTOR_YEARS_ENDPOINT
                    (sector_years_params (snd p) (fst p) (min_year filters, max_year filters)) in
  if negb (is_dict payload) || negb (dict_has "data" payload)
  then throw (RuntimeError (UnexpectedPayload (snd p) (fst p) payload))
  else values_by_year payload.

(** [fetched filters tr pairs series]: starting after [tr], the requests of
    [pairs], sent one after the other, were answered with [series]. *)
Inductive fetched (filters : Filters)
  : list event → list (string * string) → list (gmap Z (Z * float)) → Prop :=
| fetched_nil tr : fetched filters tr [] []
| fetched_cons tr p m pairs series :
    cell_series filters tr p = ok m →
    fetched filters (tr ++ [cell_request filters p])%list pairs series →
    fetched filters tr (p :: pairs) (m :: series).

(** The rows of the cells [pairs] with the series [series]. *)
Definition rows_of (filters : Filters) (pairs : list (string * string))
    (series : list (gmap Z (Z * float))) : list Row :=
  concat (zip_with (λ p m, map (cell_row (fst p) (snd p) m) (year_range filters))
                   pairs series).

(** The body of the two outer loops of [iter_rows]. *)
Definition cell_body (filters : Filters) (country sector : string) : M (list Row) :=
  payload <- fetch_sector_years sector country (min_year filters, max_year filters) ;;
  values <- lift (values_by_year payload) ;;
  for_yield (year_range filters) (λ year, ret [cell_row country sector values year]).

(** The request of [fetch_reference_totals]. *)
Definition reference_request (filters : Filters) : event :=
  HttpGet QUICKSTAT_ENDPOINT (reference_params filters).

(** A quickStat request whose sector parameter and whose country parameter
    are both "all". *)
Definition reference_request_as_claimed (e : event) : Prop :=
  ∃ params, e = HttpGet QUICKSTAT_ENDPOINT params
    ∧ dict_lookup "sector" params = Some (PyStr "all")
    ∧ dict_lookup "country" params = Some (PyStr "all").

(** The last three statements of [main]: what it does once both checks have
    passed. *)
Definition persist (args : Args) (filters : Filters) (rows : list Row)
    (summed_projects summed_value : Z) : M unit :=
  row_count <- write_csv rows (out_csv args) ;;
  _ <- write_metadata filters (out_csv args) (metadata args) row_count
         summed_projects summed_value ;;
  print ("Wrote " +:+ str_of_int row_count +:+ " rows to " +:+ out_csv args).

(** The run that starts after [tr0] has discovered [filters] and assembled
    [rows], and its trace is [tr2] at that point. *)
Definition reaches_reference (tr0 : list event) (filters : Filters) (rows : list Row)
    (tr2 : list event) : Prop :=
  ∃ html tr1,
    fetch_portal_html tr0 = (tr1, ok html)
    ∧ extract_filters html = ok filters
    ∧ iter_rows filters tr1 = (tr2, ok rows).

(** ... and has then fetched the reference totals [(qp, qv)], its trace
    being [tr3] at that point. *)
Definition reaches_reconciliation (tr0 : list event) (filters : Filters) (rows : list Row)
    (qp qv : Z) (tr3 : list event) : Prop :=
  ∃ tr2,
    reaches_reference tr0 filters rows tr2
    ∧ fetch_reference_totals filters tr2 = (tr3, ok (qp, qv)).

Definition is_reconciliation_error (e : exn) : Prop :=
  match e with
  | RuntimeError (ValueMismatch _ _) | RuntimeError (CountBelow _ _) => True
  | _ => False
  end.

(** [m] only adds to the trace. *)
Definition extends {A} (m : M A) : Prop :=
  ∀ tr, ∃ new, fst (m tr) = (tr ++ new)%list.

(** A quickStat answer that is not a list, or is an empty list, or whose
    first element gives no "total" or no "totalValue". *)
Definition malformed_quickstat (payload : pyval) : Prop :=
  match payload with
  | PyList (reference :: _) =>
      (∀ v, py_getitem reference "total" ≠ ok v)
      ∨ (∀ v, py_getitem reference "totalValue" ≠ ok v)
  | _ => True
  end.

(** Writing one of the two output files. *)
Definition writes_file (e : event) : Prop :=
  match e with CsvWritten _ _ _ | MetadataWritten _ _ => True | _ => False end.

(** The document [write_metadata] writes. *)
Definition metadata_of (args : Args) (filters : Filters) (row_count : Z)
    (summed_projects summed_value : Z) : Metadata :=
  {| meta_source := PORTAL_URL;
     meta_countries := countries filters;
     meta_sectors := sectors filters;
     year_start := min_year filters;
     year_end := max_year filters;
     meta_row_count := row_count;
     output_csv := out_csv args;
     total_projects := summed_projects;
     total_project_value_eur_millions := summed_value |}.

(** What the last three statements of [main] do when nothing fails. *)
Definition persist_events (args : Args) (filters : Filters) (rows : list Row)
    (summed_projects summed_value : Z) : list event :=
  [ MkdirParents (out_csv args);
    CsvWritten (out_csv args) fieldnames rows;
    MetadataWritten (metadata args)
      (metadata_of args filters (Z.of_nat (length rows)) summed_projects summed_value);
    Stdout ("Wrote " +:+ str_of_int (Z.of_nat (length rows)) +:+ " rows to " +:+ out_csv args) ].

(** The requests of a run that gets as far as the checks. *)
Definition run_requests (filters : Filters) : list event :=
  (HttpGet PORTAL_URL [] :: map (cell_request filters) (domain_pairs filters)
   ++ [reference_request filters])%list.

(** [converts item entry]: the dict comprehension of [iter_rows] turns the
    zipped triple [item] into the key and the value of [entry]. *)
Definition converts (item : pyval * pyval * pyval) (entry : Z * (Z * float)) : Prop :=
  py_int (fst (fst item)) = ok (fst entry)
  ∧ py_int (py_or (snd (fst item)) (PyInt 0)) = ok (fst (snd entry))
  ∧ py_float (py_or (snd item) (PyInt 0)) = ok (snd (snd entry)).

(** A dict built by inserting [entries] from left to right. *)
Definition inserted (entries : list (Z * (Z * float))) (acc : gmap Z (Z * float))
  : gmap Z (Z * float) :=
  foldl (λ m entry, <[fst entry := snd entry]> m) acc entries.

(** * Properties *)

(** ** Filter-value encoding *)

Lemma replace_space_map s :
  replace_from " " "_" 0 s = str_map space_to_underscore s.
Proof.
  induction s as [|c t IH]; [reflexivity|].
  cbn [replace_from str_map String.prefix String.length].
  unfold space_to_underscore at 1.
  destruct (ascii_dec " " c) as [<-|Hne].
  - replace (String.prefix EmptyString t) with true by (now destruct t).
    cbn. now rewrite IH.
  - destruct (Ascii.eqb_spec c " ") as [->|_]; [congruence|].
    now rewrite IH.
Qed.

Lemma str_map_idempotent f s :
  (∀ c, f (f c) = f c) → str_map f (str_map f s) = str_map f s.
Proof.
  intros Hf. induction s as [|c t IH]; cbn; [reflexivity|].
  now rewrite Hf, IH.
Qed.

Lemma space_to_underscore_idempotent c :
  space_to_underscore (space_to_underscore c) = space_to_underscore c.
Proof.
  unfold space_to_underscore.
  destruct (Ascii.eqb_spec c " ") as [->|Hne]; [reflexivity|].
  destruct (Ascii.eqb_spec c " "); [contradiction|reflexivity].
Qed.

Lemma str_map_no_space s :
  str_contains " " s = false → str_map space_to_underscore s = s.
Proof.
  induction s as [|c t IH]; [reflexivity|].
  cbn [str_contains String.prefix str_map].
  unfold space_to_underscore at 1.
  destruct (ascii_dec " " c) as [<-|Hne].
  - destruct t; discriminate.
  - intros H. destruct (Ascii.eqb_spec c " ") as [->|_]; [congruence|].
    now rewrite IH.
Qed.

(** C9, as the spec words it, fails: a TAB is white space and [encode_filter]
    leaves it where it is. *)
Lemma encode_filter_keeps_tab :
  encode_filter tab_value = tab_value
  ∧ has_whitespace (encode_filter tab_value) = true.
Proof. split; reflexivity. Qed.

(** C9 (amended): [encode_filter] replaces every space character, and no
    other character, with an underscore; it is idempotent, maps
    "Central Europe" to "Central_Europe", and leaves a value with no space
    unchanged. *)
Theorem encode_filter_spaces value :
  encode_filter value = str_map space_to_underscore value
  ∧ encode_filter (encode_filter value) = encode_filter value
  ∧ encode_filter "Central Europe" = "Central_Europe"
  ∧ (str_contains " " value = false → encode_filter value = value).
Proof.
  assert (H : ∀ s, encode_filter s = str_map space_to_underscore s)
    by (intros s; apply replace_space_map).
  repeat split.
  - apply H.
  - rewrite !H. apply str_map_idempotent, space_to_underscore_idempotent.
  - intros Hns. rewrite H. now apply str_map_no_space.
Qed.

Lemma encode_filter_spaces_witness :
  str_contains " " "Transport" = false ∧ encode_filter "Transport" = "Transport".
Proof.
  split; [reflexivity|].
  apply (proj2 (proj2 (proj2 (encode_filter_spaces "Transport")))). reflexivity.
Defined.

(** ** Reconciliation *)

Lemma check_totals_ok sp sv qp qv :
  check_totals sp sv qp qv = ok tt ↔ sv = qv ∧ qp ≤ sp.
Proof.
  unfold check_totals.
  destruct (Z.eqb_spec sv qv) as [->|Hne]; cbn.
  - destruct (Z.ltb_spec sp qp); split; try discriminate; intros; try lia; auto.
  - split; [discriminate|]. intros [? _]. contradiction.
Qed.

Lemma check_totals_value_mismatch sp sv qp qv :
  sv ≠ qv → check_totals sp sv qp qv = throw (RuntimeError (ValueMismatch sv qv)).
Proof. intros H. unfold check_totals. apply Z.eqb_neq in H. now rewrite H. Qed.

Lemma check_totals_count_below sp sv qp qv :
  sv = qv → sp < qp → check_totals sp sv qp qv = throw (RuntimeError (CountBelow sp qp)).
Proof.
  intros -> H. unfold check_totals. rewrite Z.eqb_refl. cbn.
  apply Z.ltb_lt in H. now rewrite H.
Qed.

(** ** The monad and the loops *)

Lemma only_requests_ret {A} (x : A) : only_requests (ret x).
Proof. intros tr. exists []. cbn. now rewrite app_nil_r. Qed.

Lemma only_requests_raise {A} e : only_requests (@raise A e).
Proof. intros tr. exists []. cbn. now rewrite app_nil_r. Qed.

Lemma only_requests_lift {A} (r : result A) : only_requests (lift r).
Proof. intros tr. exists []. cbn. now rewrite app_nil_r. Qed.

Lemma only_requests_bind {A B} (m : M A) (k : A → M B) :
  only_requests m → (∀ x, only_requests (k x)) → only_requests (bind m k).
Proof.
  intros Hm Hk tr. unfold bind.
  destruct (Hm tr) as (new1 & E1 & F1).
  destruct (m tr) as [tr1 [e|x]]; cbn in E1; subst tr1.
  - now exists new1.
  - destruct (Hk x (tr ++ new1)%list) as (new2 & E2 & F2).
    exists (new1 ++ new2)%list. rewrite E2, app_assoc. split; [reflexivity|].
    now apply Forall_app.
Qed.

Lemma only_requests_for_yield {A B} (xs : list A) (body : A → M (list B)) :
  (∀ x, only_requests (body x)) → only_requests (for_yield xs body).
Proof.
  intros Hb. induction xs as [|x rest IH]; cbn [for_yield].
  - apply only_requests_ret.
  - apply only_requests_bind; [apply Hb|]. intros ys.
    apply only_requests_bind; [apply IH|]. intros zs. apply only_requests_ret.
Qed.

Lemma only_requests_http_get_json url params :
  only_requests (http_get_json url params).
Proof. intros tr. exists [HttpGet url params]. cbn. split; [reflexivity|]. now constructor. Qed.

Lemma only_requests_fetch_portal_html : only_requests fetch_portal_html.
Proof. intros tr. exists [HttpGet PORTAL_URL []]. cbn. split; [reflexivity|]. now constructor. Qed.

Create HintDb requests.
#[local] Hint Resolve only_requests_ret only_requests_raise only_requests_lift
  only_requests_http_get_json only_requests_fetch_portal_html : requests.

(** Splits a bind or a loop into its parts and closes the leaves. *)
Ltac only_requests_step :=
  repeat first
    [ solve [auto with requests]
    | apply only_requests_bind; [|intros ?]
    | apply only_requests_for_yield; intros ? ].

Lemma only_requests_fetch_sector_years sector country span :
  only_requests (fetch_sector_years sector country span).
Proof.
  unfold fetch_sector_years. only_requests_step.
  destruct (_ || _); auto with requests.
Qed.

Lemma only_requests_fetch_reference_totals filters :
  only_requests (fetch_reference_totals filters).
Proof.
  unfold fetch_reference_totals. only_requests_step.
  match goal with |- only_requests (match ?payload with _ => _ end) =>
    destruct payload as [| | | | |[|reference rest]|] end; auto with requests.
Qed.

#[local] Hint Resolve only_requests_fetch_sector_years
  only_requests_fetch_reference_totals : requests.

Lemma only_requests_iter_rows filters : only_requests (iter_rows filters).
Proof. unfold iter_rows. only_requests_step. Qed.

(** A loop whose body only yields. *)
Lemma for_yield_ret {A B} (f : A → B) (xs : list A) tr :
  for_yield xs (λ x, ret [f x]) tr = (tr, ok (map f xs)).
Proof.
  induction xs as [|x rest IH]; [reflexivity|].
  cbn [for_yield]. unfold bind at 1. cbn.
  unfold bind. rewrite IH. reflexivity.
Qed.

Lemma for_yield_app {A B} (xs ys : list A) (body : A → M (list B)) tr :
  for_yield (xs ++ ys) body tr
  = (us <- for_yield xs body ;; vs <- for_yield ys body ;; ret (us ++ vs)%list) tr.
Proof.
  revert tr. induction xs as [|x rest IH]; intros tr.
  - cbn. unfold bind. cbn. destruct (for_yield ys body tr) as [tr' [e|vs]]; reflexivity.
  - cbn [app for_yield]. unfold bind.
    destruct (body x tr) as [tr1 [e|us]]; [reflexivity|].
    rewrite IH. unfold bind.
    destruct (for_yield rest body tr1) as [tr2 [e|us']]; cbn; [reflexivity|].
    destruct (for_yield ys body tr2) as [tr3 [e|vs]]; cbn; [reflexivity|].
    now rewrite app_assoc.
Qed.

Lemma for_yield_map {A B C} (f : A → B) (xs : list A) (body : B → M (list C)) tr :
  for_yield (map f xs) body tr = for_yield xs (λ x, body (f x)) tr.
Proof.
  revert tr. induction xs as [|x rest IH]; intros tr; [reflexivity|].
  cbn [map for_yield]. unfold bind.
  destruct (body (f x) tr) as [tr1 [e|us]]; [reflexivity|].
  now rewrite IH.
Qed.

(** Two nested loops are one loop over the pairs, the outer list varying
    slowest. *)
Lemma for_yield_nested {A B C} (xs : list A) (ys : list B) (body : A → B → M (list C)) tr :
  for_yield xs (λ x, for_yield ys (body x)) tr
  = for_yield (list_prod xs ys) (λ p, body (fst p) (snd p)) tr.
Proof.
  revert tr. induction xs as [|x rest IH]; intros tr; [reflexivity|].
  cbn [list_prod for_yield]. rewrite for_yield_app. unfold bind.
  rewrite for_yield_map. cbn [fst snd].
  destruct (for_yield ys _ tr) as [tr1 [e|us]]; [reflexivity|].
  now rewrite IH.
Qed.

(** ** The cube assembler *)

Lemma iter_rows_pairs filters tr :
  iter_rows filters tr
  = for_yield (domain_pairs filters) (λ p, cell_body filters (fst p) (snd p)) tr.
Proof. unfold iter_rows. now rewrite for_yield_nested. Qed.

Lemma cell_body_run filters p tr :
  cell_body filters (fst p) (snd p) tr
  = ((tr ++ [cell_request filters p])%list,
     let? m := cell_series filters tr p in
     ok (map (cell_row (fst p) (snd p) m) (year_range filters))).
Proof.
  unfold cell_body, fetch_sector_years, cell_series, cell_request, bind, http_get_json.
  destruct (get_json_response world tr _ _) as [e|payload]; cbn; [reflexivity|].
  destruct (negb (is_dict payload) || negb (dict_has "data" payload)); cbn; [reflexivity|].
  destruct (values_by_year payload) as [e|m]; cbn; [reflexivity|].
  apply for_yield_ret.
Qed.

Lemma fetched_length filters tr pairs series :
  fetched filters tr pairs series → length series = length pairs.
Proof. induction 1; cbn; congruence. Qed.

(** A successful assembly is a successful sequence of fetches. *)
Lemma cells_run filters pairs : ∀ tr tr' rows,
  for_yield pairs (λ p, cell_body filters (fst p) (snd p)) tr = (tr', ok rows) →
  ∃ series,
    fetched filters tr pairs series
    ∧ tr' = (tr ++ map (cell_request filters) pairs)%list
    ∧ rows = rows_of filters pairs series.
Proof.
  induction pairs as [|p rest IH]; intros tr tr' rows.
  - cbn. intros [= <- <-]. exists []. rewrite app_nil_r. repeat split. constructor.
  - cbn [for_yield]. unfold bind. rewrite cell_body_run.
    destruct (cell_series filters tr p) as [e|m] eqn:Hm; cbn; [discriminate|].
    destruct (for_yield rest _ _) as [tr2 [e|zs]] eqn:Hrest; cbn; [discriminate|].
    intros [= <- <-].
    destruct (IH _ _ _ Hrest) as (series & Hf & -> & ->).
    exists (m :: series). repeat split.
    + now constructor.
    + now rewrite <- app_assoc.
Qed.

(** Conversely, answered fetches make the assembly succeed. *)
Lemma cells_total filters pairs : ∀ tr series,
  fetched filters tr pairs series →
  for_yield pairs (λ p, cell_body filters (fst p) (snd p)) tr
  = ((tr ++ map (cell_request filters) pairs)%list, ok (rows_of filters pairs series)).
Proof.
  intros tr series Hf. induction Hf as [tr|tr p m pairs series Hm Hf IH].
  - cbn. now rewrite app_nil_r.
  - cbn [for_yield]. unfold bind. rewrite cell_body_run, Hm. cbn.
    rewrite IH. cbn. now rewrite <- app_assoc.
Qed.

(** A cell whose fetch or whose series fails ends the assembly with that
    error, after the requests sent so far. *)
Lemma cells_abort filters pre p post e : ∀ tr series,
  fetched filters tr pre series →
  cell_series filters (tr ++ map (cell_request filters) pre)%list p = throw e →
  for_yield (pre ++ p :: post)%list (λ p, cell_body filters (fst p) (snd p)) tr
  = ((tr ++ map (cell_request filters) pre ++ [cell_request filters p])%list, throw e).
Proof.
  intros tr series Hf. induction Hf as [tr|tr q m pairs series Hm Hf IH]; intros He.
  - cbn in *. rewrite app_nil_r in He. unfold bind. now rewrite cell_body_run, He.
  - cbn [app map for_yield]. unfold bind. rewrite cell_body_run, Hm. cbn.
    rewrite IH by (now rewrite <- app_assoc). cbn. now rewrite <- !app_assoc.
Qed.

Lemma iter_rows_aborts filters pre p post e tr series :
  domain_pairs filters = (pre ++ p :: post)%list →
  fetched filters tr pre series →
  cell_series filters (tr ++ map (cell_request filters) pre)%list p = throw e →
  iter_rows filters tr
  = ((tr ++ map (cell_request filters) pre ++ [cell_request filters p])%list, throw e).
Proof.
  intros Hp Hf He. rewrite iter_rows_pairs, Hp. now apply (cells_abort _ _ _ _ _ _ series).
Qed.

Lemma fetched_total filters pairs :
  (∀ tr p, ∃ m, cell_series filters tr p = ok m) →
  ∀ tr, ∃ series, fetched filters tr pairs series.
Proof.
  intros Hw. induction pairs as [|p rest IH]; intros tr.
  - exists []. constructor.
  - destruct (Hw tr p) as [m Hm].
    destruct (IH (tr ++ [cell_request filters p])%list) as [series Hs].
    exists (m :: series). now constructor.
Qed.

Lemma row_key_cell_row country sector m year :
  row_key (cell_row country sector m year) = (country, sector, year).
Proof. unfold cell_row. now destruct (default _ _). Qed.

Lemma rows_of_keys filters : ∀ pairs series,
  length series = length pairs →
  map row_key (rows_of filters pairs series)
  = flat_map (λ p, map (λ year, (fst p, snd p, year)) (year_range filters)) pairs.
Proof.
  unfold rows_of.
  induction pairs as [|p rest IH]; intros [|m series] Hlen; try discriminate; [reflexivity|].
  cbn. rewrite map_app, IH by (cbn in Hlen; lia). f_equal.
  rewrite map_map. apply map_ext. intros year. apply row_key_cell_row.
Qed.

Lemma rows_of_length filters : ∀ pairs series,
  length series = length pairs →
  length (rows_of filters pairs series)
  = (length pairs * length (year_range filters))%nat.
Proof.
  unfold rows_of.
  induction pairs as [|p rest IH]; intros [|m series] Hlen; try discriminate; [reflexivity|].
  cbn. rewrite length_app, length_map, IH by (cbn in Hlen; lia). lia.
Qed.

Lemma year_range_length filters :
  min_year filters ≤ max_year filters →
  Z.of_nat (length (year_range filters)) = max_year filters - min_year filters + 1.
Proof. intros H. unfold year_range, py_range. rewrite length_seqZ. lia. Qed.

(** Every row is the row of a cell and a year of the domain, its numbers
    read from the cell's series and (0, 0.0) when the year is not a key. *)
Lemma rows_of_elem filters : ∀ pairs series row,
  row ∈ rows_of filters pairs series →
  ∃ i p m, pairs !! i = Some p ∧ series !! i = Some m
    ∧ row_year row ∈ year_range filters
    ∧ row = cell_row (fst p) (snd p) m (row_year row).
Proof.
  unfold rows_of.
  induction pairs as [|p rest IH]; intros [|m series] row; cbn;
    try (intros H; now apply elem_of_nil in H).
  rewrite elem_of_app. intros [H|H].
  - apply list_elem_of_fmap in H as (year & -> & Hy).
    exists 0%nat, p, m. cbn. repeat split; try done.
    + replace (row_year _) with year; [done|].
      now unfold cell_row; destruct (default _ _).
    + f_equal. now unfold cell_row; destruct (default _ _).
  - destruct (IH _ _ H) as (i & q & m' & ? & ? & ? & ?).
    now exists (S i), q, m'.
Qed.

Lemma cell_row_default country sector (m : gmap Z (Z * float)) year :
  m !! year = None →
  project_count (cell_row country sector m year) = 0
  ∧ project_value_eur_millions (cell_row country sector m year) = 0%float.
Proof. intros H. unfold cell_row. rewrite H. now cbn. Qed.

Lemma cell_row_lookup country sector (m : gmap Z (Z * float)) year projects value :
  m !! year = Some (projects, value) →
  project_count (cell_row country sector m year) = projects
  ∧ project_value_eur_millions (cell_row country sector m year) = value.
Proof. intros H. unfold cell_row. rewrite H. now cbn. Qed.

Lemma flat_map_bind {A B} (f : A → list B) (l : list A) : flat_map f l = l ≫= f.
Proof. induction l as [|x l IH]; csimpl; [reflexivity|]. now rewrite IH. Qed.

Lemma domain_pairs_NoDup filters :
  NoDup (countries filters) → NoDup (sectors filters) → NoDup (domain_pairs filters).
Proof.
  intros Hc Hs. unfold domain_pairs. rewrite list_prod_as_flat_map, flat_map_bind.
  apply NoDup_bind; [| |exact Hc].
  - intros c1 c2 [c s] _ _ H1 H2.
    apply list_elem_of_fmap in H1 as (? & [= <- _] & _).
    apply list_elem_of_fmap in H2 as (? & [= <- _] & _). reflexivity.
  - intros c _. apply NoDup_fmap_2; [|exact Hs]. now intros ?? [= ->].
Qed.

Lemma domain_triples_NoDup filters :
  NoDup (countries filters) → NoDup (sectors filters) → NoDup (domain_triples filters).
Proof.
  intros Hc Hs. unfold domain_triples. rewrite flat_map_bind.
  apply NoDup_bind; [| |now apply domain_pairs_NoDup].
  - intros [c1 s1] [c2 s2] [[c s] y] _ _ H1 H2.
    apply list_elem_of_fmap in H1 as (? & [= <- <- _] & _).
    apply list_elem_of_fmap in H2 as (? & [= <- <- _] & _). reflexivity.
  - intros p _. apply NoDup_fmap_2; [|apply NoDup_seqZ]. now intros ?? [= ->].
Qed.

Lemma elem_of_domain_triples filters country sector year :
  (country, sector, year) ∈ domain_triples filters
  ↔ country ∈ countries filters ∧ sector ∈ sectors filters
    ∧ min_year filters ≤ year ≤ max_year filters.
Proof.
  unfold domain_triples, domain_pairs, year_range, py_range.
  rewrite flat_map_bind, list_elem_of_bind. split.
  - intros ([c s] & H1 & H2).
    apply list_elem_of_fmap in H1 as (y & [= <- <- <-] & Hy).
    apply list_elem_of_In, in_prod_iff in H2 as [Hc Hs].
    apply elem_of_seqZ in Hy.
    rewrite !list_elem_of_In. repeat split; try done; lia.
  - intros (Hc & Hs & Hy). exists (country, sector). split.
    + apply list_elem_of_fmap. exists year. split; [reflexivity|].
      apply elem_of_seqZ. lia.
    + apply list_elem_of_In, in_prod_iff. now rewrite <- !list_elem_of_In.
Qed.

(** Position of an element in a concatenation of blocks of equal length. *)
Lemma lookup_flat_map_uniform {A B} (f : A → list B) (n : nat) (l : list A) :
  (∀ x, length (f x) = n) →
  ∀ i k x y, l !! i = Some x → f x !! k = Some y →
    flat_map f l !! (i * n + k)%nat = Some y.
Proof.
  intros Hn. induction l as [|a l IH]; intros i k x y Hi Hk; [done|].
  cbn [flat_map]. destruct i as [|i]; cbn in Hi.
  - injection Hi as ->. cbn. now apply lookup_app_l_Some.
  - rewrite lookup_app_r; rewrite Hn; [|lia].
    replace (S i * n + k - n)%nat with (i * n + k)%nat by lia.
    now apply (IH _ _ x).
Qed.

Lemma lookup_domain_pairs filters i j country sector :
  countries filters !! i = Some country → sectors filters !! j = Some sector →
  domain_pairs filters !! (i * length (sectors filters) + j)%nat = Some (country, sector).
Proof.
  intros Hi Hj. unfold domain_pairs. rewrite list_prod_as_flat_map.
  apply (lookup_flat_map_uniform _ _ _ (λ c, length_map _ _) i j country); [exact Hi|].
  now rewrite list_lookup_fmap, Hj.
Qed.

(** The triple at a given position: countries vary slowest, years fastest
    and upwards from [min_year]. *)
Lemma lookup_domain_triples filters i j k country sector :
  countries filters !! i = Some country → sectors filters !! j = Some sector →
  (k < length (year_range filters))%nat →
  domain_triples filters
    !! ((i * length (sectors filters) + j) * length (year_range filters) + k)%nat
  = Some (country, sector, min_year filters + Z.of_nat k).
Proof.
  intros Hi Hj Hk. unfold domain_triples.
  apply (lookup_flat_map_uniform _ _ _ (λ p, length_map _ _) _ k (country, sector)).
  - now apply lookup_domain_pairs.
  - rewrite list_lookup_fmap. unfold year_range, py_range in *.
    rewrite length_seqZ in Hk. rewrite lookup_seqZ_lt by lia. reflexivity.
Qed.

(** The shape of a successful assembly, from which C3 and C5 follow. *)
Lemma iter_rows_run filters tr tr' rows :
  iter_rows filters tr = (tr', ok rows) →
  ∃ series,
    fetched filters tr (domain_pairs filters) series
    ∧ tr' = (tr ++ map (cell_request filters) (domain_pairs filters))%list
    ∧ rows = rows_of filters (domain_pairs filters) series
    ∧ map row_key rows = domain_triples filters
    ∧ length rows = (length (countries filters) * length (sectors filters)
                     * length (year_range filters))%nat.
Proof.
  rewrite iter_rows_pairs. intros H.
  destruct (cells_run _ _ _ _ _ H) as (series & Hf & Htr & Hrows).
  exists series. pose proof (fetched_length _ _ _ _ Hf) as Hlen.
  repeat split; try assumption.
  - subst rows. now apply rows_of_keys.
  - subst rows. rewrite rows_of_length by assumption.
    unfold domain_pairs. now rewrite length_prod.
Qed.

(** C3: a successful assembly yields |countries| * |sectors| * |years| rows,
    one for each triple of the domain (each triple once when the domain lists
    have no repetition), and a row whose year is not a key of its cell's
    series carries (0, 0.0); the assembly succeeds whenever every cell request
    is answered with a well-shaped payload. *)
Theorem iter_rows_dense filters :
  countries filters ≠ [] → sectors filters ≠ [] →
  min_year filters ≤ max_year filters →
  (∀ tr tr' rows, iter_rows filters tr = (tr', ok rows) →
     Z.of_nat (length rows)
       = Z.of_nat (length (countries filters)) * Z.of_nat (length (sectors filters))
         * (max_year filters - min_year filters + 1)
     ∧ length rows = (length (countries filters) * length (sectors filters)
                      * length (year_range filters))%nat
     ∧ map row_key rows = domain_triples filters
     ∧ (NoDup (countries filters) → NoDup (sectors filters) →
        NoDup (map row_key rows)
        ∧ ∀ country sector year,
            (country, sector, year) ∈ map row_key rows
            ↔ country ∈ countries filters ∧ sector ∈ sectors filters
              ∧ min_year filters ≤ year ≤ max_year filters)
     ∧ ∃ series,
         fetched filters tr (domain_pairs filters) series
         ∧ rows = rows_of filters (domain_pairs filters) series
         ∧ ∀ row, row ∈ rows →
             ∃ i p m, domain_pairs filters !! i = Some p ∧ series !! i = Some m
               ∧ row = cell_row (fst p) (snd p) m (row_year row)
               ∧ (m !! row_year row = None →
                  project_count row = 0 ∧ project_value_eur_millions row = 0%float))
  ∧ ((∀ tr p, ∃ m, cell_series filters tr p = ok m) →
     ∀ tr, ∃ tr' rows, iter_rows filters tr = (tr', ok rows)).
Proof.
  intros _ _ Hyears. split.
  - intros tr tr' rows H.
    destruct (iter_rows_run _ _ _ _ H) as (series & Hf & _ & Hrows & Hkeys & Hlen).
    split; [|split; [exact Hlen|split; [exact Hkeys|split]]].
    + rewrite Hlen, !Nat2Z.inj_mul. now rewrite year_range_length.
    + intros Hc Hs. rewrite Hkeys. split; [now apply domain_triples_NoDup|].
      intros. apply elem_of_domain_triples.
    + exists series. split; [exact Hf|split; [exact Hrows|]].
      intros row Hrow. rewrite Hrows in Hrow.
      destruct (rows_of_elem _ _ _ _ Hrow) as (i & p & m & Hp & Hm & _ & Hr).
      exists i, p, m. repeat split; try assumption.
      * rewrite Hr. now apply cell_row_default.
      * rewrite Hr. now apply cell_row_default.
  - intros Hw tr.
    destruct (fetched_total filters (domain_pairs filters) Hw tr) as [series Hf].
    eexists _, _. rewrite iter_rows_pairs. exact (cells_total _ _ _ _ Hf).
Qed.

(** C5: rows come out countries outermost, sectors next, years innermost and
    ascending; the run sends exactly one request per (country, sector) pair,
    in that order, each for the span (min_year, max_year); a row's numbers are
    its cell's series at the row's year, and (0, 0.0) when the series has no
    such year. *)
Theorem iter_rows_order filters tr tr' rows :
  iter_rows filters tr = (tr', ok rows) →
  map row_key rows = domain_triples filters
  ∧ (∀ i j k country sector,
       countries filters !! i = Some country → sectors filters !! j = Some sector →
       (k < length (year_range filters))%nat →
       map row_key rows
         !! ((i * length (sectors filters) + j) * length (year_range filters) + k)%nat
       = Some (country, sector, min_year filters + Z.of_nat k))
  ∧ tr' = (tr ++ map (cell_request filters) (domain_pairs filters))%list
  ∧ ∃ series,
      fetched filters tr (domain_pairs filters) series
      ∧ rows = rows_of filters (domain_pairs filters) series
      ∧ ∀ row, row ∈ rows →
          ∃ i p m, domain_pairs filters !! i = Some p ∧ series !! i = Some m
            ∧ (project_count row, project_value_eur_millions row)
              = default (0, 0%float) (m !! row_year row).
Proof.
  intros H.
  destruct (iter_rows_run _ _ _ _ H) as (series & Hf & Htr & Hrows & Hkeys & _).
  split; [exact Hkeys|split; [|split; [exact Htr|]]].
  - intros. rewrite Hkeys. now apply lookup_domain_triples.
  - exists series. split; [exact Hf|split; [exact Hrows|]].
    intros row Hrow. rewrite Hrows in Hrow.
    destruct (rows_of_elem _ _ _ _ Hrow) as (i & p & m & Hp & Hm & _ & Hr).
    exists i, p, m. repeat split; try assumption.
    rewrite Hr at 1 2. unfold cell_row. now destruct (default _ _).
Qed.

(** ** The reference totals fetcher *)

Lemma fetch_reference_totals_run filters tr :
  fetch_reference_totals filters tr
  = ((tr ++ [reference_request filters])%list,
     let? payload := get_json_response world tr QUICKSTAT_ENDPOINT (reference_params filters) in
     match payload with
     | PyList (reference :: _) =>
         let? total := py_getitem reference "total" in
         let? total := py_int total in
         let? total_value := py_getitem reference "totalValue" in
         let? total_value := py_int total_value in
         ok (total, total_value)
     | _ => throw (RuntimeError (UnexpectedQuickStat payload))
     end).
Proof.
  unfold fetch_reference_totals, bind, http_get_json, reference_request.
  destruct (get_json_response world tr _ _) as [e|payload]; cbn; [reflexivity|].
  now destruct payload as [| | | | |[|reference rest]|].
Qed.

Lemma float_ratio_pos f n d : float_ratio f = Some (n, d) → 0 < d.
Proof.
  unfold float_ratio. destruct (Prim2SF f) as [s|s| |s m e]; try discriminate.
  - intros [= _ <-]. lia.
  - intros [= _ <-]. apply Z.pow_pos_nonneg; lia.
Qed.

(** [n ÷ d] is [n / d] with its fractional part dropped. *)
Lemma quot_truncates n d :
  0 < d →
  Z.abs (n ÷ d) * d ≤ Z.abs n < (Z.abs (n ÷ d) + 1) * d ∧ 0 ≤ (n ÷ d) * n.
Proof.
  intros Hd.
  destruct (Z.eq_dec n 0) as [->|Hn0]; [rewrite Z.quot_0_l by lia; lia|].
  pose proof (Z.quot_rem' n d) as Hqr.
  pose proof (Z.rem_bound_abs n d ltac:(lia)) as Hb.
  pose proof (Z.rem_sign_mul n d ltac:(lia)) as Hs.
  set (q := n ÷ d) in *. set (r := Z.rem n d) in *.
  destruct (Z_le_gt_dec 0 n) as [Hn|Hn].
  - assert (0 ≤ r) by nia.
    assert (0 ≤ q) by (destruct (Z_le_gt_dec 0 q); [assumption|nia]).
    split; nia.
  - assert (r ≤ 0) by nia.
    assert (q ≤ 0) by (destruct (Z_le_gt_dec q 0); [assumption|nia]).
    split; nia.
Qed.

Lemma int_of_float_truncates f n d :
  float_ratio f = Some (n, d) →
  int_of_float f = ok (n ÷ d)
  ∧ Z.abs (n ÷ d) * d ≤ Z.abs n < (Z.abs (n ÷ d) + 1) * d
  ∧ 0 ≤ (n ÷ d) * n.
Proof.
  intros H. unfold int_of_float. rewrite H. split; [reflexivity|].
  apply quot_truncates. eapply float_ratio_pos, H.
Qed.

(** C7 (amended): the fetcher sends one request to the quickStat endpoint
    with the parameters year = min_year, year = max_year, sector = "" and
    ccountry = "all", and returns the pair (int(total), int(totalValue)) of
    the first element of the answer. *)
Theorem fetch_reference_totals_request filters tr :
  fst (fetch_reference_totals filters tr)
  = (tr ++ [HttpGet "https://data.eib.org/epec/graph/quickStat"
              [ ("year", PyInt (min_year filters));
                ("year", PyInt (max_year filters));
                ("sector", PyStr "");
                ("ccountry", PyStr "all") ]])%list
  ∧ ∀ reference rest total total_value a b,
      get_json_response world tr QUICKSTAT_ENDPOINT (reference_params filters)
        = ok (PyList (reference :: rest)) →
      py_getitem reference "total" = ok total → py_int total = ok a →
      py_getitem reference "totalValue" = ok total_value → py_int total_value = ok b →
      snd (fetch_reference_totals filters tr) = ok (a, b).
Proof.
  rewrite fetch_reference_totals_run. split; [reflexivity|].
  intros reference rest total total_value a b Hw Ht Ha Hv Hb. cbn.
  rewrite Hw. cbn. rewrite Ht. cbn. rewrite Ha. cbn. rewrite Hv. cbn. now rewrite Hb.
Qed.

(** C10: on a well-shaped answer the fetcher returns int(total) and
    int(totalValue); for a float totalValue this is its value with the
    fractional part dropped (rounded toward zero), and it is this integer
    that [check_totals] compares with the rounded sum. *)
Theorem reference_totals_coerced filters tr reference rest total total_value :
  get_json_response world tr QUICKSTAT_ENDPOINT (reference_params filters)
    = ok (PyList (reference :: rest)) →
  py_getitem reference "total" = ok total →
  py_getitem reference "totalValue" = ok total_value →
  snd (fetch_reference_totals filters tr)
    = (let? a := py_int total in let? b := py_int total_value in ok (a, b))
  ∧ ∀ f n d, total_value = PyFloat f → float_ratio f = Some (n, d) →
      py_int total_value = ok (n ÷ d)
      ∧ Z.abs (n ÷ d) * d ≤ Z.abs n < (Z.abs (n ÷ d) + 1) * d
      ∧ 0 ≤ (n ÷ d) * n
      ∧ ∀ a, py_int total = ok a →
          snd (fetch_reference_totals filters tr) = ok (a, n ÷ d)
          ∧ ∀ summed_projects summed_value,
              check_totals summed_projects summed_value a (n ÷ d) = ok tt
              ↔ summed_value = n ÷ d ∧ a ≤ summed_projects.
Proof.
  intros Hw Ht Hv. rewrite fetch_reference_totals_run. cbn.
  rewrite Hw. cbn. rewrite Ht, Hv. cbn. split.
  - destruct (py_int total); reflexivity.
  - intros f n d -> Hr.
    destruct (int_of_float_truncates _ _ _ Hr) as (Hi & Hb & Hs).
    cbn. split; [exact Hi|split; [exact Hb|split; [exact Hs|]]].
    intros a Ha. rewrite Ha, Hi. cbn. split; [reflexivity|].
    intros. apply check_totals_ok.
Qed.

(** ** The run *)

Lemma requests_no_output new :
  Forall is_http new → ¬ Exists is_output new.
Proof.
  intros Hall Hex. apply Exists_exists in Hex as (e & Hin & Hw).
  rewrite Forall_forall in Hall. specialize (Hall e Hin). now destruct e.
Qed.

Lemma reaches_reference_requests tr0 filters rows tr2 :
  reaches_reference tr0 filters rows tr2 →
  ∃ new, tr2 = (tr0 ++ new)%list ∧ Forall is_http new.
Proof.
  intros (html & tr1 & H1 & _ & H3).
  destruct (only_requests_fetch_portal_html tr0) as (n1 & E1 & F1).
  rewrite H1 in E1. cbn in E1. subst tr1.
  destruct (only_requests_iter_rows filters (tr0 ++ n1)%list) as (n2 & E2 & F2).
  rewrite H3 in E2. cbn in E2. subst tr2.
  exists (n1 ++ n2)%list. rewrite app_assoc. split; [reflexivity|]. now apply Forall_app.
Qed.

Lemma reaches_reconciliation_requests tr0 filters rows qp qv tr3 :
  reaches_reconciliation tr0 filters rows qp qv tr3 →
  ∃ new, tr3 = (tr0 ++ new)%list ∧ Forall is_http new.
Proof.
  intros (tr2 & Hr & H4).
  destruct (reaches_reference_requests _ _ _ _ Hr) as (n2 & -> & F2).
  destruct (only_requests_fetch_reference_totals filters (tr0 ++ n2)%list) as (n3 & E3 & F3).
  rewrite H4 in E3. cbn in E3. subst tr3.
  exists (n2 ++ n3)%list. rewrite app_assoc. split; [reflexivity|]. now apply Forall_app.
Qed.

(** After the assembly, [main] is the reference fetch, the sums, the checks
    and the persistence, in this order. *)
Lemma main_from_reference args tr0 filters rows tr2 :
  reaches_reference tr0 filters rows tr2 →
  main args tr0
  = match fetch_reference_totals filters tr2 with
    | (tr3, inl e) => (tr3, inl e)
    | (tr3, inr (qp, qv)) =>
        match summed_totals rows with
        | inl e => (tr3, inl e)
        | inr (sp, sv) =>
            match check_totals sp sv qp qv with
            | inl e => (tr3, inl e)
            | inr _ => persist args filters rows sp sv tr3
            end
        end
    end.
Proof.
  intros (html & tr1 & H1 & H2 & H3).
  unfold main, bind at 1. rewrite H1. cbv beta iota delta [ok throw].
  unfold bind at 1, lift at 1. rewrite H2. cbv beta iota delta [ok throw].
  unfold bind at 1. rewrite H3. cbv beta iota delta [ok throw].
  unfold bind at 1.
  destruct (fetch_reference_totals filters tr2) as [tr3 [e|[qp qv]]]; [reflexivity|].
  unfold bind at 1, lift at 1.
  destruct (summed_totals rows) as [e|[sp sv]]; [reflexivity|].
  unfold bind at 1, lift at 1.
  destruct (check_totals sp sv qp qv) as [e|[]]; reflexivity.
Qed.

(** Every run either raises having sent requests only, or reaches the
    persistence with both checks passed. *)
Lemma main_cases args tr0 :
  (∃ e new, main args tr0 = ((tr0 ++ new)%list, throw e) ∧ Forall is_http new)
  ∨ (∃ filters rows qp qv tr3 sp sv,
       reaches_reconciliation tr0 filters rows qp qv tr3
       ∧ summed_totals rows = ok (sp, sv)
       ∧ check_totals sp sv qp qv = ok tt
       ∧ main args tr0 = persist args filters rows sp sv tr3).
Proof.
  destruct (only_requests_fetch_portal_html tr0) as (n1 & E1 & F1).
  destruct (fetch_portal_html tr0) as [tr1 [e|html]] eqn:H1; cbn in E1; subst tr1.
  { left. exists e, n1. split; [|assumption]. unfold main, bind at 1. now rewrite H1. }
  destruct (extract_filters html) as [e|filters] eqn:H2.
  { left. exists e, n1. split; [|assumption]. unfold main, bind at 1. rewrite H1.
    cbv beta iota delta [ok throw]. unfold bind at 1, lift at 1. now rewrite H2. }
  destruct (only_requests_iter_rows filters (tr0 ++ n1)%list) as (n2 & E2 & F2).
  destruct (iter_rows filters (tr0 ++ n1)%list) as [tr2 [e|rows]] eqn:H3; cbn in E2; subst tr2.
  { left. exists e, (n1 ++ n2)%list. rewrite app_assoc. split; [|now apply Forall_app].
    unfold main, bind at 1. rewrite H1. cbv beta iota delta [ok throw].
    unfold bind at 1, lift at 1. rewrite H2. cbv beta iota delta [ok throw].
    unfold bind at 1. now rewrite H3. }
  assert (reaches_reference tr0 filters rows ((tr0 ++ n1) ++ n2)%list) as Hr
    by (now exists html, (tr0 ++ n1)%list).
  rewrite (main_from_reference args _ _ _ _ Hr).
  destruct (only_requests_fetch_reference_totals filters ((tr0 ++ n1) ++ n2)%list)
    as (n3 & E3 & F3).
  destruct (fetch_reference_totals filters _) as [tr3 [e|[qp qv]]] eqn:H4;
    cbn in E3; subst tr3.
  { left. exists e, (n1 ++ n2 ++ n3)%list. rewrite !app_assoc.
    split; [reflexivity|]. rewrite !Forall_app. auto. }
  destruct (summed_totals rows) as [e|[sp sv]] eqn:H5.
  { left. exists e, (n1 ++ n2 ++ n3)%list. rewrite !app_assoc.
    split; [reflexivity|]. rewrite !Forall_app. auto. }
  destruct (check_totals sp sv qp qv) as [e|[]] eqn:H6.
  { left. exists e, (n1 ++ n2 ++ n3)%list. rewrite !app_assoc.
    split; [reflexivity|]. rewrite !Forall_app. auto. }
  right. exists filters, rows, qp, qv, (((tr0 ++ n1) ++ n2) ++ n3)%list, sp, sv.
  repeat split; try assumption. now exists ((tr0 ++ n1) ++ n2)%list.
Qed.

(** C1: the sums are the sum of the [project_count] fields and the rounded
    sum of the [project_value_eur_millions] fields; the checks pass exactly
    when the rounded value equals the reference value and the count is at
    least the reference count, and [main] goes on to write only then.  With
    reference totals (100, 5000): sums (100, 5000) pass, (95, 5000) fail on
    the count, (120, 5001) fail on the value. *)
Theorem reconciliation_rule (rows : list Row) (qp qv : Z) :
  (∀ sp sv,
     summed_totals rows = ok (sp, sv)
     ↔ sp = foldl Z.add 0 (map project_count rows)
       ∧ (let? total := py_sum (map (λ row, NFloat (project_value_eur_millions row)) rows) in
          py_round total) = ok sv)
  ∧ (∀ sp sv, check_totals sp sv qp qv = ok tt ↔ sv = qv ∧ qp ≤ sp)
  ∧ (∀ args tr0 filters tr3 sp sv,
       reaches_reconciliation tr0 filters rows qp qv tr3 →
       summed_totals rows = ok (sp, sv) →
       main args tr0
       = match check_totals sp sv qp qv with
         | inl e => (tr3, inl e)
         | inr _ => persist args filters rows sp sv tr3
         end)
  ∧ check_totals 100 5000 100 5000 = ok tt
  ∧ check_totals 95 5000 100 5000 = throw (RuntimeError (CountBelow 95 100))
  ∧ check_totals 120 5001 100 5000 = throw (RuntimeError (ValueMismatch 5001 5000)).
Proof.
  split; [|split; [|split; [|repeat split]]].
  - intros sp sv. unfold summed_totals.
    destruct (py_sum _) as [e|total]; cbn.
    { split; [discriminate|]. intros [_ ?]. discriminate. }
    destruct (py_round total) as [e|sv']; cbn.
    { split; [discriminate|]. intros [_ ?]. discriminate. }
    split.
    + intros [= <- <-]. auto.
    + intros [-> [= ->]]. reflexivity.
  - intros sp sv. apply check_totals_ok.
  - intros args tr0 filters tr3 sp sv (tr2 & Hr & H4) Hs.
    rewrite (main_from_reference args _ _ _ _ Hr), H4, Hs. reflexivity.
Qed.

Lemma extends_bind {A B} (m : M A) (k : A → M B) :
  extends m → (∀ x, extends (k x)) → extends (bind m k).
Proof.
  intros Hm Hk tr. unfold bind.
  destruct (Hm tr) as (new1 & E1).
  destruct (m tr) as [tr1 [e|x]]; cbn in E1; subst tr1.
  - now exists new1.
  - destruct (Hk x (tr ++ new1)%list) as (new2 & E2).
    exists (new1 ++ new2)%list. now rewrite E2, app_assoc.
Qed.

Lemma extends_file_op e : extends (file_op e).
Proof.
  intros tr. unfold file_op. destruct (io_fails world tr e).
  - exists []. cbn. now rewrite app_nil_r.
  - now exists [e].
Qed.

Lemma persist_extends args filters rows sp sv tr :
  ∃ after, fst (persist args filters rows sp sv tr) = (tr ++ after)%list.
Proof.
  revert tr. change (extends (persist args filters rows sp sv)).
  unfold persist, write_csv, write_metadata.
  apply extends_bind.
  - apply extends_bind; [apply extends_file_op|]. intros _.
    destruct rows as [|row rest].
    + intros tr. exists []. cbn. now rewrite app_nil_r.
    + apply extends_bind; [apply extends_file_op|]. intros _.
      intros tr. exists []. cbn. now rewrite app_nil_r.
  - intros row_count. apply extends_bind; [apply extends_file_op|]. intros _.
    intros tr. now eexists [_].
Qed.

(** C2: a run does something other than sending requests (creates the
    directory, writes the CSV file or the metadata file, prints) only when it
    has fetched the reference totals and passed both checks, and after all
    its requests; a run that fails a check raises and has sent requests
    only. *)
Theorem persistence_after_reconciliation args tr0 :
  (∀ tr r, main args tr0 = (tr, r) →
     Exists is_output (drop (length tr0) tr) →
     ∃ filters rows qp qv tr3 sp sv,
       reaches_reconciliation tr0 filters rows qp qv tr3
       ∧ summed_totals rows = ok (sp, sv)
       ∧ sv = qv ∧ qp ≤ sp
       ∧ Forall is_http (drop (length tr0) tr3)
       ∧ ∃ after, tr = (tr3 ++ after)%list)
  ∧ (∀ filters rows qp qv tr3 sp sv,
       reaches_reconciliation tr0 filters rows qp qv tr3 →
       summed_totals rows = ok (sp, sv) →
       sv ≠ qv ∨ sp < qp →
       ∃ msg,
         main args tr0 = (tr3, throw (RuntimeError msg))
         ∧ (msg = ValueMismatch sv qv ∨ msg = CountBelow sp qp)
         ∧ Forall is_http (drop (length tr0) tr3)).
Proof.
  split.
  - intros tr r Hmain Hw.
    destruct (main_cases args tr0)
      as [(e & new & Hm & Hall)|(filters & rows & qp & qv & tr3 & sp & sv & Hr & Hs & Hc & Hm)].
    + rewrite Hm in Hmain. injection Hmain as <- <-.
      rewrite drop_app_length in Hw. now apply requests_no_output in Hall.
    + exists filters, rows, qp, qv, tr3, sp, sv.
      apply check_totals_ok in Hc as [-> Hp].
      destruct (reaches_reconciliation_requests _ _ _ _ _ _ Hr) as (new & -> & Hall).
      rewrite drop_app_length. repeat split; try assumption.
      destruct (persist_extends args filters rows sp qv (tr0 ++ new)%list) as [after Ha].
      exists after. rewrite <- Ha, <- Hm, Hmain. reflexivity.
  - intros filters rows qp qv tr3 sp sv Hr Hs Hfail.
    destruct (reaches_reconciliation_requests _ _ _ _ _ _ Hr) as (new & Htr & Hall).
    destruct Hr as (tr2 & Hr & H4).
    rewrite (main_from_reference args _ _ _ _ Hr), H4, Hs.
    cbv beta iota delta [ok].
    subst tr3. rewrite drop_app_length.
    destruct (Z.eq_dec sv qv) as [Heq|Hne].
    + exists (CountBelow sp qp).
      rewrite check_totals_count_below by (assumption || lia). auto.
    + exists (ValueMismatch sv qv).
      rewrite check_totals_value_mismatch by assumption. auto.
Qed.

(** ** Malformed answers *)

Lemma py_int_error v e :
  py_int v = throw e → e = TypeError ∨ e = ValueError ∨ e = OverflowError.
Proof.
  destruct v as [|b|z|f|s|xs|items]; cbn; try (intros [= <-]; auto); try discriminate.
  - unfold int_of_float. destruct (float_ratio f) as [[n d]|]; [discriminate|].
    destruct (float_is_nan f); intros [= <-]; auto.
  - destruct (str_to_int s); [discriminate|]. intros [= <-]; auto.
Qed.

Lemma py_getitem_error v key e :
  py_getitem v key = throw e → e = KeyError key ∨ e = TypeError.
Proof.
  destruct v as [|b|z|f|s|xs|items]; cbn; try (intros [= <-]; auto).
  destruct (dict_lookup key items); [discriminate|]. intros [= <-]; auto.
Qed.

(** C6: on a quickStat answer that is not a list, is an empty list, or whose
    first element gives no "total" or no "totalValue", the fetcher raises
    (RuntimeError from its own check when the answer is not a non-empty list,
    KeyError when the first element is a dict without the field), and the run
    ends there with that error: [check_totals] is not reached and nothing is
    written. *)
Theorem malformed_reference_rejected filters tr payload :
  get_json_response world tr QUICKSTAT_ENDPOINT (reference_params filters) = ok payload →
  malformed_quickstat payload →
  ∃ e,
    fetch_reference_totals filters tr = ((tr ++ [reference_request filters])%list, throw e)
    ∧ ¬ is_reconciliation_error e
    ∧ (is_list payload = false ∨ payload = PyList [] →
       e = RuntimeError (UnexpectedQuickStat payload))
    ∧ (∀ items rest, payload = PyList (PyDict items :: rest) →
       dict_lookup "total" items = None → e = KeyError "total")
    ∧ (∀ items rest total a, payload = PyList (PyDict items :: rest) →
       dict_lookup "total" items = Some total → py_int total = ok a →
       dict_lookup "totalValue" items = None → e = KeyError "totalValue")
    ∧ ∀ args tr0 rows,
        reaches_reference tr0 filters rows tr →
        main args tr0 = ((tr ++ [reference_request filters])%list, throw e)
        ∧ Forall is_http (drop (length tr0) (tr ++ [reference_request filters])).
Proof.
  intros Hw Hbad.
  assert (∃ e,
    fetch_reference_totals filters tr = ((tr ++ [reference_request filters])%list, throw e)
    ∧ ¬ is_reconciliation_error e
    ∧ (is_list payload = false ∨ payload = PyList [] →
       e = RuntimeError (UnexpectedQuickStat payload))
    ∧ (∀ items rest, payload = PyList (PyDict items :: rest) →
       dict_lookup "total" items = None → e = KeyError "total")
    ∧ (∀ items rest total a, payload = PyList (PyDict items :: rest) →
       dict_lookup "total" items = Some total → py_int total = ok a →
       dict_lookup "totalValue" items = None → e = KeyError "totalValue"))
    as (e & Hrun & Hnot & H1 & H2 & H3).
  { rewrite fetch_reference_totals_run, Hw. cbn.
    destruct payload as [| | | | |[|reference rest]|];
      try (eexists; split; [reflexivity|];
           split; [now intros []|]; split; [reflexivity|]; split; intros; discriminate).
    cbn in Hbad.
    destruct (py_getitem reference "total") as [e1|total] eqn:Ht; cbn.
    { exists e1. split; [reflexivity|]. split; [|split; [|split]].
      - apply py_getitem_error in Ht as [->| ->]; now intros [].
      - intros [|]; discriminate.
      - intros items rest' [= -> _] Hn. cbn in Ht. rewrite Hn in Ht. now injection Ht.
      - intros items rest' total a [= -> _] Hs. cbn in Ht. rewrite Hs in Ht. discriminate. }
    destruct (py_int total) as [e2|a] eqn:Ha; cbn.
    { exists e2. split; [reflexivity|]. split; [|split; [|split]].
      - apply py_int_error in Ha as [->|[->| ->]]; now intros [].
      - intros [|]; discriminate.
      - intros items rest' [= -> _] Hn. cbn in Ht. rewrite Hn in Ht. discriminate.
      - intros items rest' total' a' [= -> _] Hs Ha'. cbn in Ht. rewrite Hs in Ht.
        injection Ht as ->. rewrite Ha' in Ha. discriminate. }
    destruct (py_getitem reference "totalValue") as [e3|total_value] eqn:Hv; cbn.
    { exists e3. split; [reflexivity|]. split; [|split; [|split]].
      - apply py_getitem_error in Hv as [->| ->]; now intros [].
      - intros [|]; discriminate.
      - intros items rest' [= -> _] Hn. cbn in Ht. rewrite Hn in Ht. discriminate.
      - intros items rest' total' a' [= -> _] _ _ Hn. cbn in Hv. rewrite Hn in Hv.
        now injection Hv. }
    destruct Hbad as [Hbad|Hbad]; [now destruct (Hbad total)|now destruct (Hbad total_value)]. }
  exists e. repeat split; try assumption.
  - rewrite (main_from_reference args _ _ _ _ H), Hrun. reflexivity.
  - destruct (reaches_reference_requests _ _ _ _ H) as (new & -> & Hall).
    rewrite <- app_assoc, drop_app_length. apply Forall_app. split; [assumption|].
    repeat constructor.
Qed.

(** ** The cell payload *)

Lemma py_zip3_length {A B C} (xs : list A) (ys : list B) (zs : list C) :
  length (py_zip3 xs ys zs) = (length xs `min` (length ys `min` length zs))%nat.
Proof.
  revert ys zs. induction xs as [|x xs IH]; intros [|y ys] [|z zs]; cbn; try reflexivity.
  now rewrite IH.
Qed.

(** What lies beyond the shortest sequence plays no part. *)
Lemma py_zip3_take {A B C} (xs : list A) (ys : list B) (zs : list C) :
  let n := (length xs `min` (length ys `min` length zs))%nat in
  py_zip3 xs ys zs = py_zip3 (take n xs) (take n ys) (take n zs).
Proof.
  revert ys zs. induction xs as [|x xs IH]; intros [|y ys] [|z zs]; cbn; try reflexivity.
  f_equal. apply IH.
Qed.

Lemma py_iter_error v e : py_iter v = throw e → e = TypeError.
Proof. destruct v; cbn; try discriminate; now intros [= <-]. Qed.

Lemma fetch_sector_years_run sector country span tr :
  fetch_sector_years sector country span tr
  = ((tr ++ [HttpGet SECTOR_YEARS_ENDPOINT (sector_years_params sector country span)])%list,
     let? payload := get_json_response world tr SECTOR_YEARS_ENDPOINT
                       (sector_years_params sector country span) in
     if negb (is_dict payload) || negb (dict_has "data" payload)
     then throw (RuntimeError (UnexpectedPayload sector country payload))
     else ok payload).
Proof.
  unfold fetch_sector_years, bind, http_get_json.
  destruct (get_json_response world tr _ _) as [e|payload]; cbn; [reflexivity|].
  now destruct (negb (is_dict payload) || negb (dict_has "data" payload)).
Qed.

(** C4 (amended): the fetcher raises RuntimeError on an answer that is not a
    dict or has no "data" key; an answer with "data" but without "total" or
    "totalValue" passes the fetcher and raises KeyError when [iter_rows]
    builds the series, and TypeError when one of the three entries cannot be
    iterated; three lists of unequal lengths raise nothing: the series is
    built from their first n entries, n the shortest length. *)
Theorem cell_payload_checks sector country span tr payload :
  get_json_response world tr SECTOR_YEARS_ENDPOINT (sector_years_params sector country span)
    = ok payload →
  (is_dict payload = false ∨ dict_has "data" payload = false →
   snd (fetch_sector_years sector country span tr)
   = throw (RuntimeError (UnexpectedPayload sector country payload)))
  ∧ ∀ items data, payload = PyDict items → dict_lookup "data" items = Some data →
      snd (fetch_sector_years sector country span tr) = ok payload
      ∧ (dict_lookup "total" items = None →
         values_by_year payload = throw (KeyError "total"))
      ∧ (is_Some (dict_lookup "total" items) → dict_lookup "totalValue" items = None →
         values_by_year payload = throw (KeyError "totalValue"))
      ∧ (∀ total total_value,
           dict_lookup "total" items = Some total →
           dict_lookup "totalValue" items = Some total_value →
           py_iter data = throw TypeError ∨ py_iter total = throw TypeError
           ∨ py_iter total_value = throw TypeError →
           values_by_year payload = throw TypeError)
      ∧ ∀ years totals values,
          data = PyList years →
          dict_lookup "total" items = Some (PyList totals) →
          dict_lookup "totalValue" items = Some (PyList values) →
          let n := (length years `min` (length totals `min` length values))%nat in
          values_by_year payload
          = collect_values (py_zip3 (take n years) (take n totals) (take n values)) ∅
          ∧ length (py_zip3 years totals values) = n.
Proof.
  intros Hw. rewrite fetch_sector_years_run, Hw. cbn. split.
  - intros [H|H]; rewrite H; cbn; [reflexivity|]. now rewrite orb_true_r.
  - intros items data -> Hd. cbn. unfold values_by_year. cbn.
    rewrite Hd. cbn. split; [|split; [|split; [|split]]].
    + destruct (bool_decide_reflect (is_Some (Some data))) as [_|Hn]; [reflexivity|].
      now destruct Hn.
    + now intros ->.
    + intros [total ->] ->. reflexivity.
    + intros total total_value -> -> Hbad. cbn.
      destruct (py_iter data) as [e1|ys] eqn:H1; cbn.
      { now rewrite (py_iter_error _ _ H1). }
      destruct (py_iter total) as [e2|ts] eqn:H2; cbn.
      { now rewrite (py_iter_error _ _ H2). }
      destruct (py_iter total_value) as [e3|vs] eqn:H3; cbn.
      { now rewrite (py_iter_error _ _ H3). }
      destruct Hbad as [?|[?|?]]; discriminate.
    + intros years totals values -> -> ->. cbn.
      split; [now rewrite <- py_zip3_take|apply py_zip3_length].
Qed.

(** ** Filter discovery *)

Lemma sector_kept_iff opt :
  sector_kept opt = true
  ↔ get_text_strip opt ≠ EmptyString ∧ str_contains "--All--" (get_text opt) = false.
Proof.
  unfold sector_kept. rewrite andb_true_iff, !negb_true_iff.
  now rewrite String.eqb_neq.
Qed.

Lemma country_kept_iff opt :
  country_kept opt = true
  ↔ get_text_strip opt ≠ EmptyString ∧ str_contains "--All--" (get_text opt) = false
    ∧ str_lower (opt_value opt) ≠ "all".
Proof.
  unfold country_kept. rewrite !andb_true_iff, !negb_true_iff.
  rewrite !String.eqb_neq. tauto.
Qed.

Lemma extract_filters_lists html filters :
  extract_filters html = ok filters →
  ∃ sector_options country_options,
    sector_select (BeautifulSoup html) = Some sector_options
    ∧ country_select (BeautifulSoup html) = Some country_options
    ∧ sectors filters
      = map get_text_strip (filter (λ opt, sector_kept opt = true) sector_options)
    ∧ countries filters
      = map get_text_strip (filter (λ opt, country_kept opt = true) country_options).
Proof.
  unfold extract_filters.
  destruct (yearSlider (BeautifulSoup html)) as [slider|]; [|discriminate].
  destruct (int_attr slider "data-slider-min") as [e|lo]; [discriminate|].
  destruct (int_attr slider "data-slider-max") as [e|hi]; [discriminate|]. cbn.
  destruct (sector_select (BeautifulSoup html)) as [sector_options|]; [|discriminate].
  destruct (country_select (BeautifulSoup html)) as [country_options|]; [|discriminate].
  destruct (map get_text_strip (filter _ sector_options)) as [|s ss] eqn:Hs; [discriminate|].
  destruct (map get_text_strip (filter _ country_options)) as [|c cs] eqn:Hc; [discriminate|].
  intros [= <-]. cbn. now exists sector_options, country_options.
Qed.

(** C8 (amended): a sector is kept exactly when it is the stripped text of an
    option whose stripped text is not empty and whose text does not contain
    "--All--" (matched as written, upper and lower case distinguished; the
    option's value is not looked at); a country is kept under the same two
    conditions and, besides, when its option's value, lower-cased, is not
    "all". *)
Theorem extract_filters_sentinels html filters :
  extract_filters html = ok filters →
  ∃ sector_options country_options,
    sector_select (BeautifulSoup html) = Some sector_options
    ∧ country_select (BeautifulSoup html) = Some country_options
    ∧ (∀ sector, sector ∈ sectors filters
         ↔ ∃ opt, opt ∈ sector_options ∧ sector = get_text_strip opt
             ∧ get_text_strip opt ≠ EmptyString
             ∧ str_contains "--All--" (get_text opt) = false)
    ∧ (∀ country, country ∈ countries filters
         ↔ ∃ opt, opt ∈ country_options ∧ country = get_text_strip opt
             ∧ get_text_strip opt ≠ EmptyString
             ∧ str_contains "--All--" (get_text opt) = false
             ∧ str_lower (opt_value opt) ≠ "all").
Proof.
  intros H.
  destruct (extract_filters_lists _ _ H) as (so & co & Hso & Hco & -> & ->).
  exists so, co. split; [exact Hso|split; [exact Hco|split]].
  - intros sector. rewrite list_elem_of_fmap. split.
    + intros (opt & -> & Hin). apply list_elem_of_filter in Hin as [Hk Hin].
      apply sector_kept_iff in Hk as [? ?]. now exists opt.
    + intros (opt & Hin & -> & Hne & Hall). exists opt. split; [reflexivity|].
      apply list_elem_of_filter. split; [|exact Hin]. now apply sector_kept_iff.
  - intros country. rewrite list_elem_of_fmap. split.
    + intros (opt & -> & Hin). apply list_elem_of_filter in Hin as [Hk Hin].
      apply country_kept_iff in Hk as (? & ? & ?). now exists opt.
    + intros (opt & Hin & -> & Hne & Hall & Hv). exists opt. split; [reflexivity|].
      apply list_elem_of_filter. split; [|exact Hin]. now apply country_kept_iff.
Qed.

(** * Further properties of the script *)

(** ** Writing the files *)

(** [write_csv] creates the directory first; without rows it then raises
    "No rows returned from the API." and writes no file; with rows it writes
    them all under the five field names and returns their number; the only
    other outcome is an [OSError] of the file system, and then the file event
    is absent. *)
Lemma write_csv_outcome rows output_path tr :
  (io_fails world tr (MkdirParents output_path) = true →
   write_csv rows output_path tr = (tr, throw OSError))
  ∧ (io_fails world tr (MkdirParents output_path) = false →
     (rows = [] →
      write_csv rows output_path tr
      = ((tr ++ [MkdirParents output_path])%list, throw (RuntimeError NoRows)))
     ∧ (rows ≠ [] →
        let tr1 := (tr ++ [MkdirParents output_path])%list in
        write_csv rows output_path tr
        = if io_fails world tr1 (CsvWritten output_path fieldnames rows)
          then (tr1, throw OSError)
          else ((tr1 ++ [CsvWritten output_path fieldnames rows])%list,
                ok (Z.of_nat (length rows)))))
  ∧ (∀ tr' n, write_csv rows output_path tr = (tr', ok n) →
       rows ≠ [] ∧ n = Z.of_nat (length rows)
       ∧ tr' = (tr ++ [MkdirParents output_path;
                       CsvWritten output_path fieldnames rows])%list).
Proof.
  unfold write_csv, bind, file_op, raise, ret.
  destruct (io_fails world tr (MkdirParents output_path)) eqn:Hm.
  { split; [reflexivity|split; [discriminate|]]. intros tr' n [=]. }
  split; [discriminate|]. destruct rows as [|row rest].
  { split; [now split|]. intros tr' n [=]. }
  split.
  - intros _. split; [discriminate|]. intros _. cbn.
    now destruct (io_fails world _ (CsvWritten _ _ _)).
  - intros tr' n. destruct (io_fails world _ (CsvWritten _ _ _)); [discriminate|].
    intros [= <- <-]. split; [discriminate|]. split; [reflexivity|].
    now rewrite <- app_assoc.
Qed.

Lemma write_csv_cases rows output_path tr :
  write_csv rows output_path tr = (tr, throw OSError)
  ∨ (rows = []
     ∧ write_csv rows output_path tr
       = ((tr ++ [MkdirParents output_path])%list, throw (RuntimeError NoRows)))
  ∨ (rows ≠ []
     ∧ write_csv rows output_path tr
       = ((tr ++ [MkdirParents output_path])%list, throw OSError))
  ∨ (rows ≠ []
     ∧ write_csv rows output_path tr
       = ((tr ++ [MkdirParents output_path; CsvWritten output_path fieldnames rows])%list,
          ok (Z.of_nat (length rows)))).
Proof.
  destruct (write_csv_outcome rows output_path tr) as (Hfail & Hgo & _).
  destruct (io_fails world tr (MkdirParents output_path)); [left; now apply Hfail|].
  destruct (Hgo eq_refl) as [Hnil Hrows]. right.
  destruct rows as [|row rest]; [left; split; [reflexivity|now apply Hnil]|].
  right. assert (row :: rest ≠ []) as Hne by discriminate.
  rewrite (Hrows Hne). cbv zeta.
  destruct (io_fails world _ _); [left|right]; split; try assumption; try reflexivity.
  now rewrite <- app_assoc.
Qed.

Lemma persist_run args filters rows sp sv tr :
  ∃ after,
    fst (persist args filters rows sp sv tr) = (tr ++ after)%list
    ∧ after `prefix_of` persist_events args filters rows sp sv
    ∧ (snd (persist args filters rows sp sv tr) = ok tt
       ↔ rows ≠ [] ∧ after = persist_events args filters rows sp sv)
    ∧ (∀ e, snd (persist args filters rows sp sv tr) = throw e →
         e = OSError ∨ (e = RuntimeError NoRows ∧ rows = []))
    ∧ (rows = [] → after `prefix_of` [MkdirParents (out_csv args)]).
Proof.
  unfold persist_events.
  destruct (write_csv_cases rows (out_csv args) tr) as [Hw|[[Hr Hw]|[[Hr Hw]|[Hr Hw]]]].
  - assert (persist args filters rows sp sv tr = (tr, throw OSError)) as ->
      by (unfold persist, bind at 1; now rewrite Hw).
    exists []. cbn. rewrite app_nil_r. split; [reflexivity|]. split; [apply prefix_nil|].
    split; [split; [discriminate|intros [_ [=]]]|]. split; [|intros _; apply prefix_nil].
    intros e [= <-]. now left.
  - assert (persist args filters rows sp sv tr
            = ((tr ++ [MkdirParents (out_csv args)])%list, throw (RuntimeError NoRows))) as ->
      by (unfold persist, bind at 1; now rewrite Hw).
    exists [MkdirParents (out_csv args)]. cbn. split; [reflexivity|].
    split; [now apply prefix_cons, prefix_nil|].
    split; [split; [discriminate|now intros [? _]]|]. split; [|reflexivity].
    intros e [= <-]. now right.
  - assert (persist args filters rows sp sv tr
            = ((tr ++ [MkdirParents (out_csv args)])%list, throw OSError)) as ->
      by (unfold persist, bind at 1; now rewrite Hw).
    exists [MkdirParents (out_csv args)]. cbn. split; [reflexivity|].
    split; [now apply prefix_cons, prefix_nil|].
    split; [split; [discriminate|intros [_ [=]]]|]. split; [|now intros ->].
    intros e [= <-]. now left.
  - set (tr2 := (tr ++ [MkdirParents (out_csv args);
                        CsvWritten (out_csv args) fieldnames rows])%list) in *.
    set (meta := MetadataWritten (metadata args)
                   (metadata_of args filters (Z.of_nat (length rows)) sp sv)).
    assert (persist args filters rows sp sv tr
            = if io_fails world tr2 meta then (tr2, throw OSError)
              else ((tr2 ++ [meta; Stdout ("Wrote " +:+ str_of_int (Z.of_nat (length rows))
                                            +:+ " rows to " +:+ out_csv args)])%list,
                    ok tt)) as ->.
    { unfold persist, bind at 1. rewrite Hw. cbv beta iota delta [ok].
      unfold write_metadata, print, bind, file_op. fold (metadata_of args filters (Z.of_nat (length rows)) sp sv).
      fold meta. destruct (io_fails world tr2 meta); [reflexivity|].
      now rewrite <- app_assoc. }
    destruct (io_fails world tr2 meta).
    + exists [MkdirParents (out_csv args); CsvWritten (out_csv args) fieldnames rows].
      cbn. split; [reflexivity|].
      split; [now do 2 apply prefix_cons; apply prefix_nil|].
      split; [split; [discriminate|intros [_ [=]]]|]. split; [|now intros ->].
      intros e [= <-]. now left.
    + eexists. unfold tr2. cbn. rewrite <- !app_assoc. cbn. split; [reflexivity|].
      split; [reflexivity|]. split; [now split|]. split; [discriminate|now intros ->].
Qed.

(** X1: whatever the file system does, the last part of [main] performs an
    initial segment of: create the directory, write the CSV file, write the
    metadata, print the closing line.  It returns normally exactly when it
    performed all four on a non-empty table; otherwise it raises [OSError],
    or "No rows returned from the API." when the table is empty, and then at
    most the directory was created.  So the metadata is never written unless
    the CSV file was written before it. *)
Theorem persist_in_order args filters rows sp sv tr :
  ∃ after,
    fst (persist args filters rows sp sv tr) = (tr ++ after)%list
    ∧ after `prefix_of` persist_events args filters rows sp sv
    ∧ (snd (persist args filters rows sp sv tr) = ok tt
       ↔ rows ≠ [] ∧ after = persist_events args filters rows sp sv)
    ∧ (∀ e, snd (persist args filters rows sp sv tr) = throw e →
         e = OSError ∨ (e = RuntimeError NoRows ∧ rows = []))
    ∧ (rows = [] → after `prefix_of` [MkdirParents (out_csv args)])
    ∧ (∀ path meta, MetadataWritten path meta ∈ after →
         CsvWritten (out_csv args) fieldnames rows ∈ after).
Proof.
  destruct (persist_run args filters rows sp sv tr) as (after & Hfst & Hpre & Hok & Herr & Hnil).
  exists after.
  split; [exact Hfst|split; [exact Hpre|split; [exact Hok|split; [exact Herr|]]]].
  split; [exact Hnil|].
  intros path meta Hin. destruct Hpre as [rest Hpre]. unfold persist_events in Hpre.
  destruct after as [|e1 [|e2 after']].
  - now apply elem_of_nil in Hin.
  - injection Hpre as <- _. apply list_elem_of_singleton in Hin. discriminate.
  - injection Hpre as <- <- _. apply list_elem_of_further, list_elem_of_here.
Qed.


(** ** Whole runs *)

Lemma year_range_empty filters :
  max_year filters < min_year filters → year_range filters = [].
Proof. intros H. unfold year_range, py_range. apply seqZ_nil. lia. Qed.

Lemma rows_of_no_years filters pairs series :
  year_range filters = [] → rows_of filters pairs series = [].
Proof.
  intros Hy. unfold rows_of. rewrite Hy. revert series.
  induction pairs as [|p pairs IH]; intros [|m series]; cbn; auto.
Qed.

(** The trace of a run at the point where the checks are made. *)
Lemma reaches_reconciliation_trace tr0 filters rows qp qv tr3 :
  reaches_reconciliation tr0 filters rows qp qv tr3 →
  tr3 = (tr0 ++ run_requests filters)%list.
Proof.
  intros (tr2 & (html & tr1 & H1 & _ & H3) & H4).
  unfold fetch_portal_html, http_get_text in H1. injection H1 as <- _.
  destruct (iter_rows_run _ _ _ _ H3) as (series & _ & -> & _).
  rewrite fetch_reference_totals_run in H4. injection H4 as <- _.
  unfold run_requests. cbn. now rewrite <- !app_assoc.
Qed.

(** X2: a run that returns normally has sent the portal request, one cell
    request per (country, sector) pair in order and the reference request,
    then created the directory, written the CSV file and the metadata and
    printed the closing line, and nothing else.  The rows written are the
    assembled cube, which is not empty; the metadata holds the sum of the
    counts, which is at least the reference count, the reference value, and
    the row count |countries| * |sectors| * (max_year - min_year + 1). *)
Theorem successful_run args tr0 tr :
  main args tr0 = (tr, ok tt) →
  ∃ filters rows qp qv sp,
    tr = (tr0 ++ run_requests filters ++ persist_events args filters rows sp qv)%list
    ∧ reaches_reconciliation tr0 filters rows qp qv (tr0 ++ run_requests filters)%list
    ∧ rows ≠ []
    ∧ map row_key rows = domain_triples filters
    ∧ summed_totals rows = ok (sp, qv)
    ∧ qp ≤ sp
    ∧ min_year filters ≤ max_year filters
    ∧ Z.of_nat (length rows)
      = Z.of_nat (length (countries filters)) * Z.of_nat (length (sectors filters))
        * (max_year filters - min_year filters + 1).
Proof.
  intros Hmain.
  destruct (main_cases args tr0)
    as [(e & new & Hm & _)|(filters & rows & qp & qv & tr3 & sp & sv & Hr & Hs & Hc & Hm)].
  { rewrite Hm in Hmain. discriminate. }
  apply check_totals_ok in Hc as [-> Hp].
  pose proof (reaches_reconciliation_trace _ _ _ _ _ _ Hr) as ->.
  destruct (persist_run args filters rows sp qv (tr0 ++ run_requests filters)%list)
    as (after & Hfst & _ & Hok & _).
  rewrite <- Hm, Hmain in Hfst, Hok. cbn in Hfst, Hok.
  destruct (proj1 Hok eq_refl) as [Hne ->].
  assert (min_year filters ≤ max_year filters) as Hy.
  { destruct (Z_le_gt_dec (min_year filters) (max_year filters)) as [|Hgt]; [assumption|].
    destruct Hr as (tr2 & (html & tr1 & _ & _ & H3) & _).
    destruct (iter_rows_run _ _ _ _ H3) as (series & _ & _ & Hrows & _).
    rewrite rows_of_no_years in Hrows by (apply year_range_empty; lia). contradiction. }
  exists filters, rows, qp, qv, sp.
  split; [now rewrite Hfst, <- app_assoc|]. split; [exact Hr|]. split; [exact Hne|].
  destruct Hr as (tr2 & (html & tr1 & _ & _ & H3) & _).
  destruct (iter_rows_run _ _ _ _ H3) as (series & _ & _ & _ & Hkeys & Hlen).
  split; [exact Hkeys|]. split; [exact Hs|]. split; [exact Hp|]. split; [exact Hy|].
  rewrite Hlen, !Nat2Z.inj_mul. now rewrite year_range_length.
Qed.

(** X3: a page whose slider has its maximum below its minimum is accepted by
    [extract_filters], and the run then never writes a file and never returns
    normally: the cube is empty, so the run ends with a failed request, a
    failed check, an [OSError], or "No rows returned from the API.". *)
Theorem empty_year_range_never_persists args tr0 tr1 html filters tr r :
  fetch_portal_html tr0 = (tr1, ok html) →
  extract_filters html = ok filters →
  max_year filters < min_year filters →
  main args tr0 = (tr, r) →
  (∃ e, r = throw e)
  ∧ ¬ Exists writes_file (drop (length tr0) tr)
  ∧ ∀ tr2 rows, iter_rows filters tr1 = (tr2, ok rows) → rows = [].
Proof.
  intros H1 H2 Hy Hmain.
  assert (∀ tr2 rows, iter_rows filters tr1 = (tr2, ok rows) → rows = []) as Hempty.
  { intros tr2 rows H3. destruct (iter_rows_run _ _ _ _ H3) as (series & _ & _ & -> & _).
    apply rows_of_no_years, year_range_empty, Hy. }
  destruct (main_cases args tr0)
    as [(e & new & Hm & Hall)|(f & rows & qp & qv & tr3 & sp & sv & Hr & Hs & Hc & Hm)].
  - rewrite Hm in Hmain. injection Hmain as <- <-. split; [now exists e|].
    split; [|exact Hempty]. rewrite drop_app_length.
    intros Hex. apply Exists_exists in Hex as (ev & Hin & Hw).
    rewrite Forall_forall in Hall. specialize (Hall ev Hin). now destruct ev.
  - destruct (reaches_reconciliation_requests _ _ _ _ _ _ Hr) as (new & -> & Hall).
    destruct Hr as (tr2 & (html' & tr1' & H1' & H2' & H3) & _).
    rewrite H1 in H1'. injection H1' as <- <-. rewrite H2 in H2'. injection H2' as <-.
    apply Hempty in H3 as ->.
    destruct (persist_run args filters [] sp sv (tr0 ++ new)%list)
      as (after & Hfst & _ & Hok & _ & Hnil).
    rewrite <- Hm, Hmain in Hfst, Hok. cbn in Hfst, Hok. subst tr.
    split; [|split; [|exact Hempty]].
    + destruct r as [e|[]]; [now exists e|]. now destruct (proj1 Hok eq_refl) as [? _].
    + rewrite <- app_assoc, drop_app_length.
      intros Hex. apply Exists_exists in Hex as (ev & Hin & Hw).
      apply elem_of_app in Hin as [Hin|Hin].
      * rewrite Forall_forall in Hall. specialize (Hall ev Hin). now destruct ev.
      * destruct (Hnil eq_refl) as [rest Hpre]. destruct after as [|e1 after'].
        { now apply elem_of_nil in Hin. }
        injection Hpre as <- Hrest. destruct after'; [|discriminate].
        apply list_elem_of_singleton in Hin as ->. exact Hw.
Qed.

(** X4: when the portal page cannot be fetched or [extract_filters] raises,
    the run ends with that error having sent the portal request only: no cell
    request and no reference request is made. *)
Theorem discovery_failure_stops_run args tr0 e :
  get_text_response world tr0 PORTAL_URL = throw e
  ∨ (∃ html, get_text_response world tr0 PORTAL_URL = ok html
             ∧ extract_filters html = throw e) →
  main args tr0 = ((tr0 ++ [HttpGet PORTAL_URL []])%list, throw e).
Proof.
  intros [H|(html & H & He)]; unfold main, bind at 1, fetch_portal_html, http_get_text;
    rewrite H; cbv beta iota delta [ok throw]; [reflexivity|].
  unfold bind at 1, lift at 1. now rewrite He.
Qed.

(** X5: a cell whose request fails, whose answer is rejected or whose series
    cannot be built ends the whole run with that error; the cells before it
    were requested once each, in order, and no later cell and no reference
    request follows. *)
Theorem cell_failure_stops_run args tr0 html filters pre p post series e :
  get_text_response world tr0 PORTAL_URL = ok html →
  extract_filters html = ok filters →
  domain_pairs filters = (pre ++ p :: post)%list →
  fetched filters (tr0 ++ [HttpGet PORTAL_URL []])%list pre series →
  cell_series filters ((tr0 ++ [HttpGet PORTAL_URL []]) ++ map (cell_request filters) pre)%list p
    = throw e →
  main args tr0
  = ((tr0 ++ HttpGet PORTAL_URL [] :: map (cell_request filters) pre
          ++ [cell_request filters p])%list,
     throw e).
Proof.
  intros H1 H2 Hp Hf He.
  unfold main, bind at 1, fetch_portal_html, http_get_text.
  rewrite H1. cbv beta iota delta [ok throw].
  unfold bind at 1, lift at 1. rewrite H2. cbv beta iota delta [ok throw].
  unfold bind at 1. rewrite (iter_rows_aborts _ _ _ _ _ _ _ Hp Hf He).
  now rewrite <- app_assoc.
Qed.

(** ** The series of a cell *)

Lemma inserted_lookup_notin entries : ∀ acc y,
  y ∉ entries.*1 → inserted entries acc !! y = acc !! y.
Proof.
  induction entries as [|[k cv] entries IH]; intros acc y Hy; [reflexivity|].
  cbn in *. apply not_elem_of_cons in Hy as [Hne Hy].
  unfold inserted in *. cbn. rewrite IH by assumption. now apply lookup_insert_ne.
Qed.

Lemma inserted_lookup_last pre y cv post acc :
  y ∉ post.*1 → inserted (pre ++ (y, cv) :: post) acc !! y = Some cv.
Proof.
  intros Hy. unfold inserted. rewrite foldl_app. cbn.
  fold (inserted post (<[y:=cv]> (foldl (λ m entry, <[entry.1:=entry.2]> m) acc pre))).
  rewrite inserted_lookup_notin by assumption. apply lookup_insert_eq.
Qed.

Lemma inserted_lookup_Some entries : ∀ acc y cv,
  inserted entries acc !! y = Some cv → (y, cv) ∈ entries ∨ acc !! y = Some cv.
Proof.
  induction entries as [|[k cv'] entries IH]; intros acc y cv H; [now right|].
  unfold inserted in *. cbn in H. apply IH in H as [H|H].
  - left. now apply list_elem_of_further.
  - apply lookup_insert_Some in H as [[-> ->]|[_ H]]; [left; apply list_elem_of_here|now right].
Qed.

Lemma inserted_lookup_is_Some entries : ∀ acc y,
  is_Some (inserted entries acc !! y) ↔ y ∈ entries.*1 ∨ is_Some (acc !! y).
Proof.
  induction entries as [|[k cv] entries IH]; intros acc y.
  - cbn. split; [now right|]. intros [H|H]; [now apply elem_of_nil in H|exact H].
  - unfold inserted in *. cbn. rewrite IH, lookup_insert_is_Some, elem_of_cons.
    destruct (decide (k = y)) as [->|Hne]; [tauto|]. split.
    + intros [?|[?|[_ ?]]]; auto.
    + intros [[?|?]|?]; auto.
Qed.

Lemma collect_values_inserted items : ∀ acc m,
  collect_values items acc = ok m →
  ∃ entries, Forall2 converts items entries ∧ m = inserted entries acc.
Proof.
  induction items as [|[[year total] total_value] items IH]; intros acc m.
  - intros [= <-]. exists []. split; [constructor|reflexivity].
  - cbn [collect_values].
    destruct (py_int year) as [e|key] eqn:Hk; [discriminate|]. cbn.
    destruct (py_int (py_or total (PyInt 0))) as [e|projects] eqn:Hp; [discriminate|]. cbn.
    destruct (py_float (py_or total_value (PyInt 0))) as [e|value] eqn:Hv; [discriminate|]. cbn.
    intros H. destruct (IH _ _ H) as (entries & Hconv & ->).
    exists ((key, (projects, value)) :: entries). split; [|reflexivity].
    constructor; [|exact Hconv]. now repeat split.
Qed.

(** X6: the series built from a cell's answer has exactly the years
    [int(year)] of the zipped entries as keys; when a year occurs more than
    once its last entry is the one kept; and every value of the series comes
    from an entry of the answer. *)
Theorem values_by_year_entries payload m :
  values_by_year payload = ok m →
  ∃ years totals values entries,
    (∃ data total total_value,
       py_getitem payload "data" = ok data ∧ py_iter data = ok years
       ∧ py_getitem payload "total" = ok total ∧ py_iter total = ok totals
       ∧ py_getitem payload "totalValue" = ok total_value
       ∧ py_iter total_value = ok values)
    ∧ Forall2 converts (py_zip3 years totals values) entries
    ∧ (∀ y, is_Some (m !! y) ↔ y ∈ entries.*1)
    ∧ (∀ pre y cv post,
         entries = (pre ++ (y, cv) :: post)%list → y ∉ post.*1 → m !! y = Some cv)
    ∧ (∀ y cv, m !! y = Some cv → (y, cv) ∈ entries).
Proof.
  unfold values_by_year.
  destruct (py_getitem payload "data") as [e|data] eqn:H1; [discriminate|]. cbn.
  destruct (py_getitem payload "total") as [e|total] eqn:H2; [discriminate|]. cbn.
  destruct (py_getitem payload "totalValue") as [e|total_value] eqn:H3; [discriminate|]. cbn.
  destruct (py_iter data) as [e|years] eqn:H4; [discriminate|]. cbn.
  destruct (py_iter total) as [e|totals] eqn:H5; [discriminate|]. cbn.
  destruct (py_iter total_value) as [e|values] eqn:H6; [discriminate|]. cbn.
  intros H. destruct (collect_values_inserted _ _ _ H) as (entries & Hconv & ->).
  exists years, totals, values, entries.
  split; [exists data, total, total_value; repeat split; (reflexivity || assumption)|].
  split; [exact Hconv|]. split; [|split].
  - intros y. rewrite inserted_lookup_is_Some. split; [|now left].
    intros [?|Hs]; [assumption|]. now apply lookup_empty_is_Some in Hs.
  - intros pre y cv post -> Hy. now apply inserted_lookup_last.
  - intros y cv Hm. apply inserted_lookup_Some in Hm as [?|Hm]; [assumption|].
    now apply lookup_empty_Some in Hm.
Qed.

(** X7: a count that is null, zero, false or empty is read as 0 and such a
    value as 0.0; and in the rows of a cell, a year whose entry is (0, 0.0)
    cannot be told from a year the answer does not list. *)
Theorem zero_entry_like_missing_year :
  (∀ total, py_truthy total = false → py_int (py_or total (PyInt 0)) = ok 0)
  ∧ (∀ total_value, py_truthy total_value = false →
       py_float (py_or total_value (PyInt 0)) = ok 0%float)
  ∧ ∀ country sector (m : gmap Z (Z * float)) y,
      m !! y = Some (0, 0%float) →
      ∀ year, cell_row country sector m year = cell_row country sector (delete y m) year.
Proof.
  split; [|split].
  - intros total H. unfold py_or. now rewrite H.
  - intros total_value H. unfold py_or. now rewrite H.
  - intros country sector m y Hm year. unfold cell_row.
    destruct (decide (y = year)) as [<-|Hne].
    + now rewrite lookup_delete_eq, Hm.
    + now rewrite lookup_delete_ne.
Qed.

(** ** The requests of the assembler *)

Lemma str_map_no_space_left s :
  str_contains " " (str_map space_to_underscore s) = false.
Proof.
  induction s as [|c t IH]; [reflexivity|].
  cbn [str_map str_contains String.prefix].
  destruct (ascii_dec " " (space_to_underscore c)) as [Heq|_]; [|exact IH].
  unfold space_to_underscore in Heq.
  destruct (Ascii.eqb_spec c " ") as [->|Hne]; [discriminate|]. now destruct Hne.
Qed.

Lemma str_map_length f s : String.length (str_map f s) = String.length s.
Proof. induction s as [|c t IH]; cbn; congruence. Qed.

Lemma cells_requests filters pairs : ∀ tr tr' r,
  for_yield pairs (λ p, cell_body filters (fst p) (snd p)) tr = (tr', r) →
  ∃ k, (k ≤ length pairs)%nat
    ∧ tr' = (tr ++ map (cell_request filters) (take k pairs))%list
    ∧ (∀ rows, r = ok rows → k = length pairs)
    ∧ (∀ e, r = throw e →
         ∃ i p, k = S i ∧ pairs !! i = Some p
           ∧ cell_series filters (tr ++ map (cell_request filters) (take i pairs))%list p
             = throw e).
Proof.
  induction pairs as [|p rest IH]; intros tr tr' r.
  - cbn. intros [= <- <-]. exists 0%nat. cbn. rewrite app_nil_r.
    repeat split; try done.
  - cbn [for_yield]. unfold bind. rewrite cell_body_run.
    destruct (cell_series filters tr p) as [e|m] eqn:Hm; cbn.
    { intros [= <- <-]. exists 1%nat. cbn. rewrite take_0. cbn.
      split; [lia|]. split; [reflexivity|]. split; [discriminate|].
      intros e' [= <-]. exists 0%nat, p. cbn. now rewrite app_nil_r. }
    destruct (for_yield rest _ _) as [tr2 r2] eqn:Hrest.
    destruct (IH _ _ _ Hrest) as (k & Hk & -> & Hok & Herr).
    intros Hr. exists (S k). cbn. split; [lia|].
    destruct r2 as [e|zs]; cbn in Hr; injection Hr as <- <-.
    + split; [now rewrite <- app_assoc|]. split; [discriminate|].
      intros e' [= <-]. destruct (Herr e eq_refl) as (i & q & -> & Hq & Hs).
      exists (S i), q. cbn. rewrite <- app_assoc in Hs. now repeat split.
    + split; [now rewrite <- app_assoc|]. split; [|discriminate].
      intros rows _. f_equal. now apply (Hok zs).
Qed.


(** ** The sums and the comparison *)

Lemma float_of_int_zero : float_of_int 0 = ok 0%float.
Proof. reflexivity. Qed.

Lemma py_sum_floats_from acc fs :
  foldl (λ acc x, let? a := acc in number_add a x) (ok (NFloat acc)) (map NFloat fs)
  = ok (NFloat (foldl PrimFloat.add acc fs)).
Proof. revert acc. induction fs as [|f fs IH]; intros acc; [reflexivity|]. cbn. apply IH. Qed.

Lemma py_sum_floats fs :
  py_sum (map NFloat fs)
  = ok (match fs with [] => NInt 0 | _ => NFloat (foldl PrimFloat.add 0%float fs) end).
Proof.
  destruct fs as [|f fs]; [reflexivity|]. unfold py_sum. cbn [map foldl].
  cbn [and_then number_add ok]. rewrite float_of_int_zero. cbn [and_then ok].
  apply py_sum_floats_from.
Qed.

Lemma round_float_error f e :
  round_float f = throw e → e = ValueError ∨ e = OverflowError.
Proof.
  unfold round_float. destruct (float_ratio f) as [[n d]|]; [discriminate|].
  destruct (float_is_nan f); intros [= <-]; auto.
Qed.


Lemma round_half_even_nearest n d :
  0 < d →
  2 * Z.abs (round_half_even n d * d - n) ≤ d
  ∧ (2 * Z.abs (round_half_even n d * d - n) = d → Z.even (round_half_even n d) = true).
Proof.
  intros Hd. unfold round_half_even.
  pose proof (Z.div_mod n d ltac:(lia)) as Hdm.
  pose proof (Z.mod_pos_bound n d Hd) as Hb.
  set (q := n `div` d) in *. set (r := n `mod` d) in *.
  destruct (Z.compare_spec (2 * r) d) as [Heq|Hlt|Hgt].
  - destruct (Z.even q) eqn:He.
    + split; [nia|]. intros _. exact He.
    + split; [nia|]. intros _. rewrite Z.even_add, He. reflexivity.
  - split; [nia|]. intros H. exfalso. nia.
  - split; [nia|]. intros H. exfalso. nia.
Qed.

(** X10: the rounded value sum is a nearest integer to the float sum: it is
    at most one half away from it, and exactly one half away only when it is
    even. *)
Theorem py_round_nearest f n d z :
  float_ratio f = Some (n, d) →
  py_round (NFloat f) = ok z →
  2 * Z.abs (z * d - n) ≤ d ∧ (2 * Z.abs (z * d - n) = d → Z.even z = true).
Proof.
  intros Hr. cbn. unfold round_float. rewrite Hr. intros [= <-].
  apply round_half_even_nearest. eapply float_ratio_pos, Hr.
Qed.

(** X11: the sum is rounded to the nearest integer but the reference value
    is truncated, so a table whose value sum is the very float the portal
    reports passes the value check exactly when the fractional part of that
    (non-negative) float is below one half, or is one half with an even
    integer part; with a larger fractional part the run fails with a value
    mismatch of one. *)
Theorem same_value_reconciles_iff f n d sv qv :
  float_ratio f = Some (n, d) → 0 ≤ n →
  py_round (NFloat f) = ok sv →
  py_int (PyFloat f) = ok qv →
  qv = n `div` d
  ∧ (sv = qv ∨ sv = qv + 1)
  ∧ (sv = qv ↔ 2 * (n `mod` d) < d ∨ (2 * (n `mod` d) = d ∧ Z.even (n `div` d) = true))
  ∧ ∀ sp qp, check_totals sp sv qp qv = ok tt
             ↔ (2 * (n `mod` d) < d ∨ (2 * (n `mod` d) = d ∧ Z.even (n `div` d) = true))
               ∧ qp ≤ sp.
Proof.
  intros Hr Hn. cbn. unfold round_float, int_of_float. rewrite Hr.
  intros [= <-] [= <-].
  pose proof (float_ratio_pos _ _ _ Hr) as Hd.
  rewrite Z.quot_div_nonneg by lia.
  assert (round_half_even n d = n `div` d
          ↔ 2 * (n `mod` d) < d ∨ (2 * (n `mod` d) = d ∧ Z.even (n `div` d) = true)) as Hiff.
  { unfold round_half_even.
    destruct (Z.compare_spec (2 * (n `mod` d)) d) as [Heq|Hlt|Hgt].
    - destruct (Z.even (n `div` d)) eqn:He.
      + split; [auto|reflexivity].
      + split; [lia|]. intros [?|[_ ?]]; [lia|discriminate].
    - split; [auto|reflexivity].
    - split; [lia|]. intros [?|[? _]]; lia. }
  split; [reflexivity|]. split; [|split; [exact Hiff|]].
  - unfold round_half_even. destruct (_ ?= _); [destruct (Z.even _)| |]; auto.
  - intros sp qp. rewrite check_totals_ok, Hiff. reflexivity.
Qed.

(** ** Failures of the discovery *)

Lemma filter_none_kept (kept : OptionTag → bool) (options : list OptionTag) :
  Forall (λ opt, kept opt = false) options →
  filter (λ opt, kept opt = true) options = [].
Proof.
  induction 1 as [|opt options Hopt _ IH]; [reflexivity|].
  rewrite filter_cons, IH. destruct (decide (kept opt = true)); [congruence|reflexivity].
Qed.

(** X12: [extract_filters] raises "Year slider not found" on a page without
    the slider, whatever else the page holds; [KeyError] when the slider
    lacks a bound; "Unable to locate sector or country dropdowns" when a
    dropdown is missing; and "Parsed empty sector or country list" when
    every option of a dropdown is filtered out.  When it returns, both lists
    are non-empty, no name in them is empty, and the year bounds are the
    slider's two attributes read as integers; the bounds are not compared
    with each other. *)
Theorem extract_filters_outcome html :
  (yearSlider (BeautifulSoup html) = None →
   extract_filters html = throw (RuntimeError YearSliderNotFound))
  ∧ (∀ slider, yearSlider (BeautifulSoup html) = Some slider →
       (attr_lookup "data-slider-min" slider = None →
        extract_filters html = throw (KeyError "data-slider-min"))
       ∧ ∀ lo, int_attr slider "data-slider-min" = ok lo →
           (attr_lookup "data-slider-max" slider = None →
            extract_filters html = throw (KeyError "data-slider-max"))
           ∧ ∀ hi, int_attr slider "data-slider-max" = ok hi →
               (sector_select (BeautifulSoup html) = None
                ∨ country_select (BeautifulSoup html) = None →
                extract_filters html = throw (RuntimeError DropdownsNotFound))
               ∧ ∀ sector_options country_options,
                   sector_select (BeautifulSoup html) = Some sector_options →
                   country_select (BeautifulSoup html) = Some country_options →
                   Forall (λ opt, sector_kept opt = false) sector_options
                   ∨ Forall (λ opt, country_kept opt = false) country_options →
                   extract_filters html = throw (RuntimeError EmptyFilterList))
  ∧ ∀ filters, extract_filters html = ok filters →
      sectors filters ≠ [] ∧ countries filters ≠ []
      ∧ (∀ name, name ∈ sectors filters ∨ name ∈ countries filters → name ≠ EmptyString)
      ∧ ∃ slider, yearSlider (BeautifulSoup html) = Some slider
          ∧ int_attr slider "data-slider-min" = ok (min_year filters)
          ∧ int_attr slider "data-slider-max" = ok (max_year filters).
Proof.
  split; [|split].
  - intros H. unfold extract_filters. now rewrite H.
  - intros slider Hs. unfold extract_filters. rewrite Hs. split.
    { intros H. unfold int_attr. now rewrite H. }
    intros lo Hlo. rewrite Hlo. cbn. split.
    { intros H. unfold int_attr. now rewrite H. }
    intros hi Hhi. rewrite Hhi. cbn. split.
    { intros [H|H]; rewrite H; [reflexivity|].
      now destruct (sector_select (BeautifulSoup html)). }
    intros so co Hso Hco Hnone. rewrite Hso, Hco.
    destruct Hnone as [H|H]; rewrite (filter_none_kept _ _ H); cbn; [reflexivity|].
    now destruct (map get_text_strip _).
  - intros filters H.
    destruct (extract_filters_lists _ _ H) as (so & co & Hso & Hco & Hsec & Hcou).
    unfold extract_filters in H.
    destruct (yearSlider (BeautifulSoup html)) as [slider|]; [|discriminate].
    destruct (int_attr slider "data-slider-min") as [e|lo] eqn:Hlo; [discriminate|].
    destruct (int_attr slider "data-slider-max") as [e|hi] eqn:Hhi; [discriminate|]. cbn in H.
    rewrite Hso, Hco in H.
    destruct (map get_text_strip (filter _ so)) as [|s ss] eqn:Es; [discriminate|].
    destruct (map get_text_strip (filter _ co)) as [|c cs] eqn:Ec; [discriminate|].
    injection H as <-. cbn. split; [discriminate|]. split; [discriminate|]. split.
    + rewrite <- Es, <- Ec. intros name [Hin|Hin];
        apply list_elem_of_fmap in Hin as (opt & -> & Hin);
        apply list_elem_of_filter in Hin as [Hk _].
      * now apply sector_kept_iff in Hk as [? _].
      * now apply country_kept_iff in Hk as [? _].
    + exists slider. now rewrite Hlo, Hhi.
Qed.

(** X13: the discovered sectors and countries are the stripped texts of the
    page's options in the page's order, with options left out but none moved
    or added: each list is a subsequence of the texts of its dropdown. *)
Theorem extract_filters_keeps_order html filters :
  extract_filters html = ok filters →
  ∃ sector_options country_options,
    sector_select (BeautifulSoup html) = Some sector_options
    ∧ country_select (BeautifulSoup html) = Some country_options
    ∧ sectors filters `sublist_of` map get_text_strip sector_options
    ∧ countries filters `sublist_of` map get_text_strip country_options
    ∧ (length (sectors filters) ≤ length sector_options)%nat
    ∧ (length (countries filters) ≤ length country_options)%nat.
Proof.
  intros H.
  destruct (extract_filters_lists _ _ H) as (so & co & Hso & Hco & -> & ->).
  exists so, co. split; [exact Hso|]. split; [exact Hco|].
  assert (∀ (kept : OptionTag → bool) options,
            map get_text_strip (filter (λ opt, kept opt = true) options)
            `sublist_of` map get_text_strip options) as Hsub
    by (intros kept options; apply (fmap_sublist get_text_strip), sublist_filter).
  split; [apply Hsub|]. split; [apply Hsub|].
  split; (etransitivity; [apply sublist_length, Hsub|now rewrite length_map]).
Qed.

(** X14: the rows of a cell read its series only at the years of the range:
    two series that agree on the years from min_year to max_year give the same
    rows, so entries the portal returns for other years are ignored. *)
Theorem rows_ignore_other_years filters country sector (m1 m2 : gmap Z (Z * float)) :
  (∀ year, min_year filters ≤ year ≤ max_year filters → m1 !! year = m2 !! year) →
  map (cell_row country sector m1) (year_range filters)
  = map (cell_row country sector m2) (year_range filters).
Proof.
  intros Hagree. apply map_ext_in. intros year Hin.
  apply list_elem_of_In, elem_of_seqZ in Hin.
  unfold cell_row. rewrite Hagree by lia. reflexivity.
Qed.

End Program.

(** ** The sample run *)

(** The end-to-end scenario: four rows, the 2001 rows zero-filled, the sums
    (6, 25) checked against the fetched (6, int(25.75)) before the two files
    are written. *)
Example sample_run :
  main Sample.str_to_int Sample.str_to_float Sample.BeautifulSoup Sample.world Sample.args []
  = ([ HttpGet PORTAL_URL [];
       cell_request Sample.filters ("Belgium", "Transport");
       cell_request Sample.filters ("France", "Transport");
       reference_request Sample.filters;
       MkdirParents "data/epec.csv";
       CsvWritten "data/epec.csv" fieldnames Sample.rows;
       MetadataWritten "data/epec.json"
         {| meta_source := PORTAL_URL;
            meta_countries := ["Belgium"; "France"];
            meta_sectors := ["Transport"];
            year_start := 2000; year_end := 2001;
            meta_row_count := 4;
            output_csv := "data/epec.csv";
            total_projects := 6;
            total_project_value_eur_millions := 25 |};
       Stdout "Wrote 4 rows to data/epec.csv" ],
     ok tt).
Proof. vm_compute. reflexivity. Qed.

(** The same portal reporting a total value of 26: the run stops at the
    first check, having sent its four requests and written nothing. *)
Example sample_run_mismatch :
  main Sample.str_to_int Sample.str_to_float Sample.BeautifulSoup
    Sample.world_mismatch Sample.args []
  = ([ HttpGet PORTAL_URL [];
       cell_request Sample.filters ("Belgium", "Transport");
       cell_request Sample.filters ("France", "Transport");
       reference_request Sample.filters ],
     throw (RuntimeError (ValueMismatch 25 26))).
Proof. vm_compute. reflexivity. Qed.

Lemma sample_iter_rows :
  iter_rows Sample.str_to_int Sample.str_to_float Sample.world Sample.filters []
  = ([ cell_request Sample.filters ("Belgium", "Transport");
       cell_request Sample.filters ("France", "Transport") ],
     ok Sample.rows).
Proof. vm_compute. reflexivity. Defined.

Lemma iter_rows_dense_witness :
  Z.of_nat (length Sample.rows) = 2 * 1 * (2001 - 2000 + 1)
  ∧ map row_key Sample.rows = domain_triples Sample.filters.
Proof.
  destruct (iter_rows_dense Sample.str_to_int Sample.str_to_float Sample.world Sample.filters)
    as [Hshape _].
  - discriminate.
  - discriminate.
  - cbn. lia.
  - destruct (Hshape _ _ _ sample_iter_rows) as (Hlen & _ & Hkeys & _).
    split; [exact Hlen|exact Hkeys].
Defined.

Lemma iter_rows_order_witness :
  map row_key Sample.rows
  = [ ("Belgium", "Transport", 2000); ("Belgium", "Transport", 2001);
      ("France", "Transport", 2000); ("France", "Transport", 2001) ]
  ∧ [ cell_request Sample.filters ("Belgium", "Transport");
      cell_request Sample.filters ("France", "Transport") ]
    = map (cell_request Sample.filters) (domain_pairs Sample.filters).
Proof.
  destruct (iter_rows_order Sample.str_to_int Sample.str_to_float Sample.world
              Sample.filters _ _ _ sample_iter_rows) as (Hkeys & _ & Htr & _).
  split; [exact Hkeys|exact Htr].
Defined.

(** C4, as the spec words it, fails: lists of lengths 2, 1 and 2 pass the
    fetcher and the assembler without an error; the second year and the
    second value are dropped and the year 2001 is zero-filled. *)
Lemma unequal_lengths_accepted :
  snd (fetch_sector_years (Sample.answers Sample.short_payload Sample.quickstat_payload)
         "Transport" "Belgium" (2000, 2001) [])
  = ok Sample.short_payload
  ∧ snd (iter_rows Sample.str_to_int Sample.str_to_float
           (Sample.answers Sample.short_payload Sample.quickstat_payload)
           Sample.filters [])
    = ok Sample.rows.
Proof. split; vm_compute; reflexivity. Qed.

Lemma cell_payload_checks_witness :
  snd (fetch_sector_years (Sample.answers Sample.short_payload Sample.quickstat_payload)
         "Transport" "Belgium" (2000, 2001) [])
  = ok Sample.short_payload
  ∧ length (py_zip3 [PyInt 2000; PyInt 2001] [PyInt 3] [PyFloat 12.5; PyFloat 7.5]) = 1%nat.
Proof.
  destruct (cell_payload_checks Sample.str_to_int Sample.str_to_float
              (Sample.answers Sample.short_payload Sample.quickstat_payload)
              "Transport" "Belgium" (2000, 2001) [] Sample.short_payload eq_refl)
    as [_ H].
  destruct (H _ _ eq_refl eq_refl) as (Hfetch & _ & _ & _ & Hzip).
  split; [exact Hfetch|].
  exact (proj2 (Hzip _ _ _ eq_refl eq_refl eq_refl)).
Defined.

Lemma malformed_reference_rejected_witness :
  ∃ e,
    fetch_reference_totals Sample.str_to_int
      (Sample.answers Sample.cell_payload (PyList [])) Sample.filters []
    = ([reference_request Sample.filters], throw e)
    ∧ e = RuntimeError (UnexpectedQuickStat (PyList [])).
Proof.
  destruct (malformed_reference_rejected Sample.str_to_int Sample.str_to_float
              Sample.BeautifulSoup (Sample.answers Sample.cell_payload (PyList []))
              Sample.filters [] (PyList []) eq_refl I)
    as (e & Hrun & _ & Hmsg & _).
  exists e. split; [exact Hrun|]. apply Hmsg. now right.
Defined.

(** A first element without "totalValue": KeyError, and the run ends with
    it. *)
Example sample_run_missing_field :
  main Sample.str_to_int Sample.str_to_float Sample.BeautifulSoup
    (Sample.answers Sample.cell_payload (PyList [PyDict [("total", PyInt 6)]]))
    Sample.args []
  = ([ HttpGet PORTAL_URL [];
       cell_request Sample.filters ("Belgium", "Transport");
       cell_request Sample.filters ("France", "Transport");
       reference_request Sample.filters ],
     throw (KeyError "totalValue")).
Proof. vm_compute. reflexivity. Qed.

(** A cell answer without "total": the fetcher lets it through and the
    assembly ends with KeyError at the first cell. *)
Example sample_run_missing_cell_field :
  main Sample.str_to_int Sample.str_to_float Sample.BeautifulSoup
    (Sample.answers (PyDict [("data", PyList [PyInt 2000])]) Sample.quickstat_payload)
    Sample.args []
  = ([ HttpGet PORTAL_URL [];
       cell_request Sample.filters ("Belgium", "Transport") ],
     throw (KeyError "total")).
Proof. vm_compute. reflexivity. Qed.

(** C7, as the spec words it, fails: the one request of the fetcher has
    sector = "" and no country parameter. *)
Lemma reference_request_not_as_claimed :
  ∃ e,
    fst (fetch_reference_totals Sample.str_to_int Sample.world Sample.filters []) = [e]
    ∧ ¬ reference_request_as_claimed e.
Proof.
  eexists. split; [reflexivity|].
  intros (params & [= <-] & Hsector & _). discriminate Hsector.
Qed.

(** C8, as the spec words it, fails: a sector option whose value is "all", a
    sector option whose text is "--ALL--" and a country option whose text is
    "All countries" are all kept; the country option whose value is "ALL" is
    dropped. *)
Lemma sentinel_options_kept :
  extract_filters Sample.str_to_int (λ _, Sample.soup_variants) "<html>"
  = ok {| sectors := ["Any sector"; "--ALL--"; "Transport"];
          countries := ["All countries"; "Belgium"];
          min_year := 2000; max_year := 2001 |}.
Proof. vm_compute. reflexivity. Qed.

Lemma extract_filters_sentinels_witness :
  extract_filters Sample.str_to_int Sample.BeautifulSoup "<html>" = ok Sample.filters
  ∧ ("Transport" ∈ sectors Sample.filters
     ↔ ∃ opt, opt ∈ [Sample.option_tag "" "--All--"; Sample.option_tag "Transport" " Transport "]
         ∧ "Transport" = get_text_strip opt
         ∧ get_text_strip opt ≠ EmptyString
         ∧ str_contains "--All--" (get_text opt) = false).
Proof.
  assert (extract_filters Sample.str_to_int Sample.BeautifulSoup "<html>" = ok Sample.filters)
    as Hrun by (vm_compute; reflexivity).
  split; [exact Hrun|].
  destruct (extract_filters_sentinels Sample.str_to_int Sample.BeautifulSoup _ _ Hrun)
    as (so & co & [= <-] & _ & Hs & _).
  apply Hs.
Defined.

Lemma reference_totals_coerced_witness :
  float_ratio 25.75 = Some (7247980650299392, 281474976710656)
  ∧ snd (fetch_reference_totals Sample.str_to_int Sample.world Sample.filters [])
    = ok (6, 25).
Proof.
  assert (float_ratio 25.75 = Some (7247980650299392, 281474976710656)) as Hr by (vm_compute; reflexivity).
  split; [exact Hr|].
  destruct (reference_totals_coerced Sample.str_to_int Sample.world Sample.filters []
              _ _ _ _ eq_refl eq_refl eq_refl) as [_ H].
  destruct (H _ _ _ eq_refl Hr) as (_ & _ & _ & H').
  exact (proj1 (H' 6 eq_refl)).
Defined.

(** The stages of the two sample runs up to the checks. *)
Lemma sample_reaches_reconciliation :
  reaches_reconciliation Sample.str_to_int Sample.str_to_float Sample.BeautifulSoup
    Sample.world [] Sample.filters Sample.rows 6 25
    [ HttpGet PORTAL_URL [];
      cell_request Sample.filters ("Belgium", "Transport");
      cell_request Sample.filters ("France", "Transport");
      reference_request Sample.filters ].
Proof.
  eexists. split.
  - exists "<html>", [HttpGet PORTAL_URL []].
    split; [reflexivity|]. split; vm_compute; reflexivity.
  - vm_compute. reflexivity.
Defined.

Lemma sample_mismatch_reaches_reconciliation :
  reaches_reconciliation Sample.str_to_int Sample.str_to_float Sample.BeautifulSoup
    Sample.world_mismatch [] Sample.filters Sample.rows 6 26
    [ HttpGet PORTAL_URL [];
      cell_request Sample.filters ("Belgium", "Transport");
      cell_request Sample.filters ("France", "Transport");
      reference_request Sample.filters ].
Proof.
  eexists. split.
  - exists "<html>", [HttpGet PORTAL_URL []].
    split; [reflexivity|]. split; vm_compute; reflexivity.
  - vm_compute. reflexivity.
Defined.

Lemma reconciliation_rule_witness :
  summed_totals Sample.rows = ok (6, 25)
  ∧ check_totals 6 25 6 25 = ok tt
  ∧ main Sample.str_to_int Sample.str_to_float Sample.BeautifulSoup Sample.world
      Sample.args []
    = persist Sample.world Sample.args Sample.filters Sample.rows 6 25
        [ HttpGet PORTAL_URL [];
          cell_request Sample.filters ("Belgium", "Transport");
          cell_request Sample.filters ("France", "Transport");
          reference_request Sample.filters ].
Proof.
  destruct (reconciliation_rule Sample.str_to_int Sample.str_to_float Sample.BeautifulSoup
              Sample.world Sample.rows 6 25) as (Hsums & Hpass & Hmain & _).
  assert (summed_totals Sample.rows = ok (6, 25)) as Hs.
  { apply Hsums. split; vm_compute; reflexivity. }
  assert (check_totals 6 25 6 25 = ok tt) as Hc.
  { apply Hpass. split; [reflexivity|]. cbn. discriminate. }
  split; [exact Hs|split; [exact Hc|]].
  rewrite (Hmain Sample.args _ _ _ _ _ sample_reaches_reconciliation Hs), Hc.
  reflexivity.
Defined.

Lemma persistence_after_reconciliation_witness :
  ∃ msg,
    main Sample.str_to_int Sample.str_to_float Sample.BeautifulSoup
      Sample.world_mismatch Sample.args []
    = ([ HttpGet PORTAL_URL [];
         cell_request Sample.filters ("Belgium", "Transport");
         cell_request Sample.filters ("France", "Transport");
         reference_request Sample.filters ],
       throw (RuntimeError msg))
    ∧ (msg = ValueMismatch 25 26 ∨ msg = CountBelow 6 6).
Proof.
  destruct (persistence_after_reconciliation Sample.str_to_int Sample.str_to_float
              Sample.BeautifulSoup Sample.world_mismatch Sample.args []) as [_ Hfail].
  destruct (Hfail _ _ _ _ _ 6 25 sample_mismatch_reaches_reconciliation)
    as (msg & Hmain & Hmsg & _).
  - vm_compute. reflexivity.
  - left. discriminate.
  - exists msg. split; [exact Hmain|exact Hmsg].
Defined.

Lemma fetch_reference_totals_request_witness :
  snd (fetch_reference_totals Sample.str_to_int Sample.world Sample.filters [])
  = ok (6, 25).
Proof.
  destruct (fetch_reference_totals_request Sample.str_to_int Sample.world
              Sample.filters []) as [_ H].
  apply (H (PyDict [("total", PyInt 6); ("totalValue", PyFloat 25.75)]) []
           (PyInt 6) (PyFloat 25.75)); reflexivity.
Defined.

(** ** Edge cases, run *)

Lemma successful_run_witness :
  ∃ filters rows sp qv,
    [ HttpGet PORTAL_URL [];
      cell_request Sample.filters ("Belgium", "Transport");
      cell_request Sample.filters ("France", "Transport");
      reference_request Sample.filters;
      MkdirParents "data/epec.csv";
      CsvWritten "data/epec.csv" fieldnames Sample.rows;
      MetadataWritten "data/epec.json"
        {| meta_source := PORTAL_URL;
           meta_countries := ["Belgium"; "France"];
           meta_sectors := ["Transport"];
           year_start := 2000; year_end := 2001;
           meta_row_count := 4;
           output_csv := "data/epec.csv";
           total_projects := 6;
           total_project_value_eur_millions := 25 |};
      Stdout "Wrote 4 rows to data/epec.csv" ]
    = ([] ++ run_requests filters ++ persist_events Sample.args filters rows sp qv)%list
    ∧ rows ≠ [].
Proof.
  destruct (successful_run Sample.str_to_int Sample.str_to_float Sample.BeautifulSoup
              Sample.world Sample.args [] _ sample_run)
    as (filters & rows & qp & qv & sp & Htr & _ & Hne & _).
  now exists filters, rows, sp, qv.
Defined.

Lemma empty_year_range_never_persists_witness :
  main Sample.str_to_int Sample.str_to_float (λ _, Edge.soup_reversed) Sample.world
    Sample.args []
  = ([ HttpGet PORTAL_URL [];
       HttpGet SECTOR_YEARS_ENDPOINT
         [("year", PyStr "2001,2000"); ("sector", PyStr "Transport");
          ("country", PyStr "Belgium")];
       HttpGet SECTOR_YEARS_ENDPOINT
         [("year", PyStr "2001,2000"); ("sector", PyStr "Transport");
          ("country", PyStr "France")];
       HttpGet QUICKSTAT_ENDPOINT
         [("year", PyInt 2001); ("year", PyInt 2000); ("sector", PyStr "");
          ("ccountry", PyStr "all")] ],
     throw (RuntimeError (ValueMismatch 0 25)))
  ∧ ¬ Exists writes_file
        [ HttpGet PORTAL_URL [];
          HttpGet SECTOR_YEARS_ENDPOINT
            [("year", PyStr "2001,2000"); ("sector", PyStr "Transport");
             ("country", PyStr "Belgium")];
          HttpGet SECTOR_YEARS_ENDPOINT
            [("year", PyStr "2001,2000"); ("sector", PyStr "Transport");
             ("country", PyStr "France")];
          HttpGet QUICKSTAT_ENDPOINT
            [("year", PyInt 2001); ("year", PyInt 2000); ("sector", PyStr "");
             ("ccountry", PyStr "all")] ].
Proof.
  assert (main Sample.str_to_int Sample.str_to_float (λ _, Edge.soup_reversed) Sample.world
            Sample.args []
          = ([ HttpGet PORTAL_URL [];
               HttpGet SECTOR_YEARS_ENDPOINT
                 [("year", PyStr "2001,2000"); ("sector", PyStr "Transport");
                  ("country", PyStr "Belgium")];
               HttpGet SECTOR_YEARS_ENDPOINT
                 [("year", PyStr "2001,2000"); ("sector", PyStr "Transport");
                  ("country", PyStr "France")];
               HttpGet QUICKSTAT_ENDPOINT
                 [("year", PyInt 2001); ("year", PyInt 2000); ("sector", PyStr "");
                  ("ccountry", PyStr "all")] ],
             throw (RuntimeError (ValueMismatch 0 25)))) as Hmain
    by (vm_compute; reflexivity).
  split; [exact Hmain|].
  refine (proj1 (proj2 (empty_year_range_never_persists Sample.str_to_int Sample.str_to_float
                   (λ _, Edge.soup_reversed) Sample.world Sample.args []
                   [HttpGet PORTAL_URL []] "<html>"
                   {| sectors := ["Transport"]; countries := ["Belgium"; "France"];
                      min_year := 2001; max_year := 2000 |} _ _ _ _ _ Hmain))).
  - reflexivity.
  - vm_compute. reflexivity.
  - cbn. lia.
Defined.

Lemma discovery_failure_stops_run_witness :
  main Sample.str_to_int Sample.str_to_float (λ _, Edge.soup_no_slider) Sample.world
    Sample.args []
  = ([HttpGet PORTAL_URL []], throw (RuntimeError YearSliderNotFound)).
Proof.
  apply (discovery_failure_stops_run Sample.str_to_int Sample.str_to_float
           (λ _, Edge.soup_no_slider) Sample.world Sample.args []).
  right. exists "<html>". split; reflexivity.
Defined.

Lemma cell_failure_stops_run_witness :
  main Sample.str_to_int Sample.str_to_float Sample.BeautifulSoup Edge.world_france_fails
    Sample.args []
  = ([ HttpGet PORTAL_URL [];
       cell_request Sample.filters ("Belgium", "Transport");
       cell_request Sample.filters ("France", "Transport") ],
     throw RequestException).
Proof.
  eapply (cell_failure_stops_run Sample.str_to_int Sample.str_to_float Sample.BeautifulSoup
            Edge.world_france_fails Sample.args [] "<html>" Sample.filters
            [("Belgium", "Transport")] ("France", "Transport") []).
  - reflexivity.
  - vm_compute. reflexivity.
  - reflexivity.
  - eapply fetched_cons; [reflexivity|apply fetched_nil].
  - reflexivity.
Defined.

Lemma values_by_year_entries_witness :
  ∃ m, values_by_year Sample.str_to_int Sample.str_to_float Edge.repeated_year_payload = ok m
       ∧ m !! 2000 = Some (7, 2.5%float).
Proof.
  destruct (values_by_year Sample.str_to_int Sample.str_to_float Edge.repeated_year_payload)
    as [e|m] eqn:H; [vm_compute in H; discriminate|].
  exists m. split; [reflexivity|].
  destruct (values_by_year_entries _ _ _ _ H)
    as (years & totals & values & entries
        & (data & total & total_value & H1 & H2 & H3 & H4 & H5 & H6) & Hconv & _ & Hlast & _).
  cbn in H1, H3, H5. injection H1 as <-. injection H3 as <-. injection H5 as <-.
  cbn in H2, H4, H6. injection H2 as <-. injection H4 as <-. injection H6 as <-.
  cbn in Hconv.
  apply Forall2_cons_inv_l in Hconv as ([y1 [c1 v1]] & rest1 & _ & Hconv & ->).
  apply Forall2_cons_inv_l in Hconv as ([y2 [c2 v2]] & rest2 & (Hy & Hc & Hv) & Hconv & ->).
  apply Forall2_nil_inv_l in Hconv as ->.
  cbn in Hy, Hc, Hv. injection Hy as <-. injection Hc as <-. injection Hv as <-.
  apply (Hlast [(y1, (c1, v1))] 2000 (7, 2.5%float) []); [reflexivity|].
  apply not_elem_of_nil.
Defined.


Lemma py_round_nearest_witness :
  float_ratio 2.5 = Some (5629499534213120, 2251799813685248)
  ∧ py_round (NFloat 2.5) = ok 2
  ∧ 2 * Z.abs (2 * 2251799813685248 - 5629499534213120) ≤ 2251799813685248.
Proof.
  assert (float_ratio 2.5 = Some (5629499534213120, 2251799813685248)) as Hr
    by (vm_compute; reflexivity).
  assert (py_round (NFloat 2.5) = ok 2) as Hp by (vm_compute; reflexivity).
  split; [exact Hr|]. split; [exact Hp|].
  exact (proj1 (py_round_nearest _ _ _ _ Hr Hp)).
Defined.

Lemma same_value_reconciles_iff_witness :
  py_round (NFloat 25.75) = ok 26
  ∧ py_int Sample.str_to_int (PyFloat 25.75) = ok 25
  ∧ (26 = 25 + 1 ∨ 26 = 25)
  ∧ ∀ sp qp, check_totals sp 26 qp 25 ≠ ok tt.
Proof.
  assert (float_ratio 25.75 = Some (7247980650299392, 281474976710656)) as Hr
    by (vm_compute; reflexivity).
  assert (py_round (NFloat 25.75) = ok 26) as Hs by (vm_compute; reflexivity).
  assert (py_int Sample.str_to_int (PyFloat 25.75) = ok 25) as Hq by (vm_compute; reflexivity).
  destruct (same_value_reconciles_iff Sample.str_to_int _ _ _ _ _ Hr ltac:(lia) Hs Hq)
    as (_ & Hone & _ & Hcheck).
  split; [exact Hs|]. split; [exact Hq|]. split; [destruct Hone; [now right|now left]|].
  intros sp qp Hok. apply Hcheck in Hok as [Hfrac _].
  vm_compute in Hfrac. destruct Hfrac as [?|[? _]]; discriminate.
Defined.

Lemma extract_filters_keeps_order_witness :
  extract_filters Sample.str_to_int Sample.BeautifulSoup "<html>" = ok Sample.filters
  ∧ ["Belgium"; "France"] `sublist_of` ["--All--"; "Belgium"; "France"].
Proof.
  assert (extract_filters Sample.str_to_int Sample.BeautifulSoup "<html>" = ok Sample.filters)
    as Hrun by (vm_compute; reflexivity).
  split; [exact Hrun|].
  destruct (extract_filters_keeps_order Sample.str_to_int Sample.BeautifulSoup _ _ Hrun)
    as (so & co & _ & [= <-] & _ & Hc & _).
  exact Hc.
Defined.

Lemma rows_ignore_other_years_witness :
  map (cell_row "Belgium" "Transport" (<[1999 := (9, 9%float)]> ∅)) (year_range Sample.filters)
  = map (cell_row "Belgium" "Transport" ∅) (year_range Sample.filters).
Proof.
  apply rows_ignore_other_years. intros year Hy. cbn in Hy.
  apply lookup_insert_ne. lia.
Defined.
